(** * Medical-context assembly and document ingestion

    A shallow embedding of [apps/records/services/record_service.py]
    ([RecordService]), of the models of [apps/records/models/medical_record.py]
    and of the upload view of [apps/records/api/views.py], with the
    properties of the context assembler, the PDF text extractor and the
    upload size check. *)

From Stdlib Require Import ZArith NArith String Ascii.
From Stdlib Require Strings.Byte.
From stdpp Require Import base tactics list sorting lexico numbers.

Set Warnings "-abstract-large-number".

Open Scope list_scope.

(* ================================================================== *)
(** * Python strings *)
(* ================================================================== *)

(** A Python [str] is a sequence of Unicode code points; [len] counts code
    points and [s[:n]] keeps the first [n] of them. *)
Abbreviation char := N (only parsing).
Abbreviation str := (list N) (only parsing).

Module PyStr.

(** An ASCII literal of the source. *)
Definition lit (s : string) : str :=
  map N_of_ascii (list_ascii_of_string s).

(** ["\n"] and the em dash of [f" — {r.date_recorded}"]. *)
Definition LF : N := 10%N.
Definition EM_DASH : N := 8212%N.

(** [sep.join(parts)] *)
Fixpoint join (sep : str) (parts : list str) : str :=
  match parts with
  | [] => []
  | [p] => p
  | p :: ps => p ++ sep ++ join sep ps
  end.

(** [bool(s)]: a string is truthy when it is not empty. *)
Definition truthy (s : str) : bool :=
  match s with [] => false | _ :: _ => true end.

(** [str.isspace] on one code point, the set [str.strip()] removes:
    the ASCII controls 0x09-0x0D and 0x1C-0x1F, the space, and the Unicode
    white space characters. *)
Definition isspace (c : N) : bool :=
  (((9 <=? c) && (c <=? 13)) || ((28 <=? c) && (c <=? 32))
   || (c =? 133) || (c =? 160) || (c =? 5760)
   || ((8192 <=? c) && (c <=? 8202))
   || (c =? 8232) || (c =? 8233) || (c =? 8239) || (c =? 8287)
   || (c =? 12288))%N.

Fixpoint lstrip (s : str) : str :=
  match s with
  | c :: s' => if isspace c then lstrip s' else s
  | [] => []
  end.

Definition rstrip (s : str) : str := reverse (lstrip (reverse s)).

(** [s.strip()] *)
Definition strip (s : str) : str := rstrip (lstrip s).

(** [s.endswith(suffix)] *)
Definition endswith (s suffix : str) : bool :=
  bool_decide (suffix `suffix_of` s).

(** [str.lower()] restricted to the ASCII letters; the upload path takes
    the interpreter's [lower] as a parameter and this one serves as its
    instance on file names. *)
Definition ascii_lower (s : str) : str :=
  map (fun c => if (65 <=? c) && (c <=? 90) then c + 32 else c)%N s.

(** Decimal digits, zero padded, as [date.isoformat] prints them. *)
Definition digit (n : N) : N := (48 + n mod 10)%N.
Definition pad2 (n : N) : str := [digit (n / 10); digit n].
Definition pad4 (n : N) : str :=
  [digit (n / 1000); digit (n / 100); digit (n / 10); digit n].

End PyStr.
Import PyStr.

(* ================================================================== *)
(** * Exceptions *)
(* ================================================================== *)

(** An instance of [Exception] or of one of its subclasses, with its
    message. *)
Inductive exn := Exception (message : str).

Inductive result (A : Type) :=
  | Ok (a : A)
  | Raise (e : exn).
Arguments Ok {A} a.
Arguments Raise {A} e.

(* ================================================================== *)
(** * The models *)
(* ================================================================== *)

(** [MedicalRecord.RecordType], a [TextChoices] enumeration: the members in
    their declaration order, the value stored in the column and the label
    that [get_record_type_display] returns. *)
Inductive RecordType :=
  | CONDITION | MEDICATION | ALLERGY | PROCEDURE | VITAL
  | LAB_RESULT | IMMUNIZATION | FAMILY_HISTORY | OTHER.

#[global] Instance RecordType_eq_dec : EqDecision RecordType.
Proof. solve_decision. Defined.

Definition RecordType_members : list RecordType :=
  [CONDITION; MEDICATION; ALLERGY; PROCEDURE; VITAL;
   LAB_RESULT; IMMUNIZATION; FAMILY_HISTORY; OTHER].

Definition RecordType_value (t : RecordType) : str :=
  match t with
  | CONDITION => lit "CONDITION"
  | MEDICATION => lit "MEDICATION"
  | ALLERGY => lit "ALLERGY"
  | PROCEDURE => lit "PROCEDURE"
  | VITAL => lit "VITAL"
  | LAB_RESULT => lit "LAB_RESULT"
  | IMMUNIZATION => lit "IMMUNIZATION"
  | FAMILY_HISTORY => lit "FAMILY_HISTORY"
  | OTHER => lit "OTHER"
  end.

Definition RecordType_label (t : RecordType) : str :=
  match t with
  | CONDITION => lit "Condition / Diagnosis"
  | MEDICATION => lit "Medication"
  | ALLERGY => lit "Allergy"
  | PROCEDURE => lit "Procedure"
  | VITAL => lit "Vital Sign"
  | LAB_RESULT => lit "Lab Result"
  | IMMUNIZATION => lit "Immunization"
  | FAMILY_HISTORY => lit "Family History"
  | OTHER => lit "Other"
  end.

(** Position of a member in the declaration of the enumeration. *)
Definition RecordType_index (t : RecordType) : nat :=
  match t with
  | CONDITION => 0 | MEDICATION => 1 | ALLERGY => 2 | PROCEDURE => 3
  | VITAL => 4 | LAB_RESULT => 5 | IMMUNIZATION => 6 | FAMILY_HISTORY => 7
  | OTHER => 8
  end.

(** [MedicalRecord.Status] *)
Inductive Status := ACTIVE | RESOLVED | CHRONIC.

Definition Status_value (s : Status) : str :=
  match s with
  | ACTIVE => lit "ACTIVE"
  | RESOLVED => lit "RESOLVED"
  | CHRONIC => lit "CHRONIC"
  end.

(** [MedicalRecord.Severity] *)
Inductive Severity := MILD | MODERATE | SEVERE.

Definition Severity_value (s : Severity) : str :=
  match s with
  | MILD => lit "MILD"
  | MODERATE => lit "MODERATE"
  | SEVERE => lit "SEVERE"
  end.

(** [MedicalDocument.DocumentType] *)
Inductive DocumentType :=
  | LAB_REPORT | DISCHARGE_SUMMARY | PRESCRIPTION | IMAGING
  | REFERRAL | INSURANCE | DOC_OTHER.

Definition DocumentType_members : list DocumentType :=
  [LAB_REPORT; DISCHARGE_SUMMARY; PRESCRIPTION; IMAGING;
   REFERRAL; INSURANCE; DOC_OTHER].

Definition DocumentType_value (t : DocumentType) : str :=
  match t with
  | LAB_REPORT => lit "LAB_REPORT"
  | DISCHARGE_SUMMARY => lit "DISCHARGE_SUMMARY"
  | PRESCRIPTION => lit "PRESCRIPTION"
  | IMAGING => lit "IMAGING"
  | REFERRAL => lit "REFERRAL"
  | INSURANCE => lit "INSURANCE"
  | DOC_OTHER => lit "OTHER"
  end.

Definition DocumentType_label (t : DocumentType) : str :=
  match t with
  | LAB_REPORT => lit "Lab Report"
  | DISCHARGE_SUMMARY => lit "Discharge Summary"
  | PRESCRIPTION => lit "Prescription"
  | IMAGING => lit "Imaging Report"
  | REFERRAL => lit "Referral Letter"
  | INSURANCE => lit "Insurance Document"
  | DOC_OTHER => lit "Other"
  end.

(** A [datetime.date]; [f"{d}"] prints it as YYYY-MM-DD. *)
Record date := Date { year : N; month : N; day : N }.

Definition date_str (d : date) : str :=
  pad4 (year d) ++ lit "-" ++ pad2 (month d) ++ lit "-" ++ pad2 (day d).

(** Primary keys (UUIDs) and user ids are numbers; timestamps are instants
    on an integer clock. *)
Abbreviation UUID := N (only parsing).
Abbreviation UserId := N (only parsing).

(** The JSON values that are not objects, by the Python type that
    [json.loads] gives them. *)
Inductive JSONKind := JArray | JString | JInteger | JFloat | JBoolean.

(** [type(value).__name__] *)
Definition JSONKind_name (kind : JSONKind) : str :=
  match kind with
  | JArray => lit "list"
  | JString => lit "str"
  | JInteger => lit "int"
  | JFloat => lit "float"
  | JBoolean => lit "bool"
  end.

(** The value of a [JSONField]. The field and the [JSONField] of the
    serializers take any JSON value: a JSON object, held with its items in
    iteration order and each value as the text that [f"{val}"] renders, or
    another value (an array, a string, a number, a boolean), of which the
    code only ever uses the truth value and the type. *)
Inductive JSONData :=
  | JObject (items : list (str * str))
  | JOther (kind : JSONKind) (truth : bool).

(** [bool(data)]: an empty dict is falsy. *)
Definition JSON_truthy (data : JSONData) : bool :=
  match data with
  | JObject [] => false
  | JObject (_ :: _) => true
  | JOther _ truth => truth
  end.

(** What [value.items()] raises on a value that is not a dict. *)
Definition AttributeError (kind : JSONKind) : exn :=
  Exception (lit "'" ++ JSONKind_name kind
             ++ lit "' object has no attribute 'items'").

(** A row of [MedicalRecord]. [r_status] and [r_severity] are [None] for the
    empty string of the column; [r_data] is the value of the [data]
    column. *)
Record MedicalRecord := {
  r_id : UUID;
  r_user : UserId;
  r_record_type : RecordType;
  r_title : str;
  r_description : str;
  r_date_recorded : option date;
  r_provider : str;
  r_status : option Status;
  r_severity : option Severity;
  r_data : JSONData;
  r_is_deleted : bool;
  r_created_at : Z
}.

(** A row of [MedicalDocument]. [d_record] is the nullable foreign key;
    [d_extracted_text] is the text as the application reads it, the
    encryption of the column being transparent to queries. The key, the
    soft-delete flag and the creation time come from the base model, as in
    [MedicalRecord]. *)
Record MedicalDocument := {
  d_id : UUID;
  d_user : UserId;
  d_record : option UUID;
  d_original_filename : str;
  d_document_type : DocumentType;
  d_extracted_text : str;
  d_file_size : N;
  d_is_deleted : bool;
  d_created_at : Z
}.

(** An entry written by [AuditService.log_action]. *)
Record AuditEntry := {
  a_user_id : UserId;
  a_action : str;
  a_resource_type : str;
  a_resource_id : UUID;
  a_ip_address : option str;
  a_user_agent : str;
  a_changes : list (str * str)
}.

(** The tables. [nulls_order_largest] is the feature flag of the database
    backend that says whether NULL sorts above every value (PostgreSQL,
    Oracle) or below (SQLite, MySQL); the settings that pick the backend are
    not part of the sources, so it stays a field of the database. *)
Record Database := {
  nulls_order_largest : bool;
  medical_records : list MedicalRecord;
  medical_documents : list MedicalDocument;
  audit_log : list AuditEntry
}.

(* ================================================================== *)
(** * Query sets *)
(* ================================================================== *)

(** [order_by] sorts a query set on a key, ascending in the lexicographic
    order of the key; rows with equal keys come in an order the database
    picks, here the one of a merge sort. Descending columns negate their
    part of the key. *)
Section order_by.
Context {A K : Type} `{Lexico K} `{!StrictOrder (@lexico K _)}
        `{!TrichotomyT (@lexico K _)} `{!EqDecision K}.

Definition key_le : relation K := fun k1 k2 => lexico k1 k2 \/ k1 = k2.

#[export] Instance key_le_dec : RelDecision key_le.
Proof. intros k1 k2. unfold key_le. apply _. Defined.

Definition order_by (key : A -> K) : list A -> list A :=
  merge_sort (fun a b => key_le (key a) (key b)).
End order_by.

(** [date_recorded] as a descending sort column: later dates first, and NULL
    before every date where the backend sorts NULL largest, after every date
    where it sorts NULL smallest. *)
Definition date_desc_key (nulls_largest : bool) (d : option date)
  : Z * (Z * Z * Z) :=
  match d with
  | Some d => (0, (- Z.of_N (year d), - Z.of_N (month d), - Z.of_N (day d)))%Z
  | None => (if nulls_largest then -1 else 1, (0, 0, 0))%Z
  end.

(** The key of [order_by("record_type", "-date_recorded")]: the stored
    value of the category, a string, then the date descending. *)
Definition record_order_key (nulls_largest : bool) (r : MedicalRecord)
  : str * (Z * (Z * Z * Z)) :=
  (RecordType_value (r_record_type r),
   date_desc_key nulls_largest (r_date_recorded r)).

(** The key of [ordering = ["-created_at"]] in [MedicalDocument.Meta]. *)
Definition document_order_key (d : MedicalDocument) : Z := (- d_created_at d)%Z.

(** [MedicalRecord.objects.filter(user=user, is_deleted=False)] *)
Definition active_records (db : Database) (user : UserId) : list MedicalRecord :=
  filter (fun r => r_user r = user /\ r_is_deleted r = false) (medical_records db).

(** [... .order_by("record_type", "-date_recorded")] *)
Definition records_qs (db : Database) (user : UserId) : list MedicalRecord :=
  order_by (record_order_key (nulls_order_largest db)) (active_records db user).

(** [MedicalDocument.objects.filter(user=user, is_deleted=False)] *)
Definition active_documents (db : Database) (user : UserId) : list MedicalDocument :=
  filter (fun d => d_user d = user /\ d_is_deleted d = false) (medical_documents db).

(** [... .exclude(extracted_text="")] in the default ordering of the model. *)
Definition documents_with_text (db : Database) (user : UserId)
  : list MedicalDocument :=
  order_by document_order_key
    (filter (fun d => d_extracted_text d <> []) (active_documents db user)).

(** [... [:5]] *)
Definition documents_qs (db : Database) (user : UserId) : list MedicalDocument :=
  take 5 (documents_with_text db user).

(* ================================================================== *)
(** * AI context assembly *)
(* ================================================================== *)

(** [f"\n## {r.get_record_type_display()}"] *)
Definition record_heading (t : RecordType) : str :=
  LF :: lit "## " ++ RecordType_label t.

(** The summary line of a record, built by the four steps on [line]. *)
Definition summary_line (r : MedicalRecord) : str :=
  let line := lit "- " ++ r_title r in
  let line := match r_status r with
              | Some s => line ++ lit " (Status: " ++ Status_value s ++ lit ")"
              | None => line
              end in
  let line := match r_severity r with
              | Some s => line ++ lit " [Severity: " ++ Severity_value s ++ lit "]"
              | None => line
              end in
  let line := match r_date_recorded r with
              | Some d => line ++ [32%N; EM_DASH; 32%N] ++ date_str d
              | None => line
              end in
  line.

(** [f"  Details: {r.description[:500]}"] *)
Definition details_line (r : MedicalRecord) : str :=
  lit "  Details: " ++ take 500 (r_description r).

(** [f"  {key}: {val}"] *)
Definition data_line (kv : str * str) : str :=
  lit "  " ++ kv.1 ++ lit ": " ++ kv.2.

(** One turn of [for r in records]: the state is the list [sections] and
    [current_type], [None] before the first record. *)
Definition record_step (st : list str * option RecordType) (r : MedicalRecord)
  : result (list str * option RecordType) :=
  let '(sections, current_type) := st in
  let '(sections, current_type) :=
    if decide (Some (r_record_type r) <> current_type)
    then (sections ++ [record_heading (r_record_type r)], Some (r_record_type r))
    else (sections, current_type) in
  let sections := sections ++ [summary_line r] in
  let sections :=
    if truthy (r_description r) then sections ++ [details_line r] else sections in
  if JSON_truthy (r_data r) then
    (* [r.data.items()] exists on a dict only *)
    match r_data r with
    | JObject items =>
        Ok (fold_left (fun acc kv => acc ++ [data_line kv]) items sections,
            current_type)
    | JOther kind _ => Raise (AttributeError kind)
    end
  else Ok (sections, current_type).

(** The loop [for r in records], left by the first exception. *)
Fixpoint record_loop (records : list MedicalRecord)
    (st : list str * option RecordType)
  : result (list str * option RecordType) :=
  match records with
  | [] => Ok st
  | r :: records' =>
      match record_step st r with
      | Ok st' => record_loop records' st'
      | Raise e => Raise e
      end
  end.

(** [sections] after the loop over the records. *)
Definition record_sections (records : list MedicalRecord) : result (list str) :=
  match record_loop records ([], None) with
  | Ok st => Ok st.1
  | Raise e => Raise e
  end.

(** The two appends made for one document. *)
Definition document_lines (d : MedicalDocument) : list str :=
  [ LF :: lit "### " ++ d_original_filename d ++ lit " ("
      ++ DocumentType_label (d_document_type d) ++ lit ")";
    take 2000 (d_extracted_text d) ].

(** What the block [if documents.exists(): ...] appends to [sections]. *)
Definition document_sections (documents : list MedicalDocument) : list str :=
  match documents with
  | [] => []
  | _ :: _ =>
      fold_left (fun acc d => acc ++ document_lines d) documents
        [LF :: lit "## Uploaded Medical Documents"]
  end.

(** [sections] when [join] is reached, unless the loop over the records
    raised. *)
Definition context_sections (db : Database) (user : UserId)
  : result (list str) :=
  match record_sections (records_qs db user) with
  | Ok sections => Ok (sections ++ document_sections (documents_qs db user))
  | Raise e => Raise e
  end.

(** [RecordService.get_patient_medical_context] *)
Definition get_patient_medical_context (db : Database) (user : UserId)
  : result str :=
  match records_qs db user with
  | [] => Ok []
  | _ :: _ =>
      match context_sections db user with
      | Ok sections =>
          let context := join [LF] sections in
          Ok (take 10000 context)
      | Raise e => Raise e
      end
  end.

(* ================================================================== *)
(** * Effects: exceptions, the log and the database *)
(* ================================================================== *)

(** What a request can change: the database, the records handed to
    [logger.warning], and [pdf_reads], a ghost counter of the runs of the
    extractor's [try] block. *)
Record World := {
  db : Database;
  warnings : list (str * exn);
  pdf_reads : nat
}.

(** Computations that read and write the world and may raise. *)
Definition M (A : Type) : Type := World -> result A * World.

Definition ret {A} (a : A) : M A := fun w => (Ok a, w).

Definition bind {A B} (m : M A) (k : A -> M B) : M B :=
  fun w => match m w with
           | (Ok a, w') => k a w'
           | (Raise e, w') => (Raise e, w')
           end.

Definition lift {A} (r : result A) : M A := fun w => (r, w).

Definition get_db : M Database := fun w => (Ok (db w), w).

Definition set_db (d : Database) : M unit :=
  fun w => (Ok tt, {| db := d; warnings := warnings w; pdf_reads := pdf_reads w |}).

(** [try: body  except Exception as e: handler(e)] *)
Definition try_except {A} (body : M A) (handler : exn -> M A) : M A :=
  fun w => match body w with
           | (Ok a, w') => (Ok a, w')
           | (Raise e, w') => handler e w'
           end.

(** [@transaction.atomic]: when the body raises, the database is as it was
    on entry; the log is not part of the transaction. *)
Definition atomic {A} (body : M A) : M A :=
  fun w => match body w with
           | (Ok a, w') => (Ok a, w')
           | (Raise e, w') =>
               (Raise e, {| db := db w; warnings := warnings w';
                            pdf_reads := pdf_reads w' |})
           end.

Declare Scope monad_scope.
Delimit Scope monad_scope with M.
Notation "x <- m ;; k" := (bind m (fun x => k))
  (at level 100, m at next level, right associativity) : monad_scope.
Notation "m ;;; k" := (bind m (fun _ => k))
  (at level 100, right associativity) : monad_scope.
Open Scope monad_scope.

(** [logger.warning("PDF extraction failed: %s", e)] *)
Definition logger_warning (msg : str) (e : exn) : M unit :=
  fun w => (Ok tt, {| db := db w; warnings := warnings w ++ [(msg, e)];
                      pdf_reads := pdf_reads w |}).

Definition count_pdf_read : M unit :=
  fun w => (Ok tt, {| db := db w; warnings := warnings w;
                      pdf_reads := S (pdf_reads w) |}).

(** What the interpreter and the libraries supply: PyPDF2 ([PdfReader] on
    the bytes read from the file gives the pages or raises, [extract_text]
    gives the text of a page or raises), [str.lower], and the parser of
    [UUIDField]. *)
Class Runtime := {
  page : Type;
  PdfReader : list Byte.byte -> result (list page);
  extract_text : page -> result str;
  lower : str -> str;
  to_uuid : str -> option UUID
}.

(** An uploaded file: [file.name], [file.size] and the bytes that
    [file.seek(0); file.read()] returns. *)
Record UploadedFile := {
  f_name : str;
  f_size : N;
  f_payload : list Byte.byte
}.

(** Decimal rendering of a number, for [extracted_length] in the audit
    entry. *)
Fixpoint decimal_fuel (fuel : nat) (n : N) (acc : str) : str :=
  match fuel with
  | O => acc
  | S fuel' =>
      let acc' := digit n :: acc in
      if (n <? 10)%N then acc' else decimal_fuel fuel' (n / 10)%N acc'
  end.
Definition decimal (n : N) : str := decimal_fuel (S (N.to_nat (N.log2 n))) n [].

(* ================================================================== *)
(** * Document upload and PDF extraction *)
(* ================================================================== *)

Section Service.
Context `{rt : Runtime}.

(** The loop [for page in reader.pages] with its accumulator
    [text_parts]; an exception of [extract_text] leaves the loop. *)
Fixpoint collect_text (pages : list page) (text_parts : list str)
  : result (list str) :=
  match pages with
  | [] => Ok text_parts
  | p :: pages' =>
      match extract_text p with
      | Raise e => Raise e
      | Ok page_text =>
          collect_text pages'
            (if truthy page_text then text_parts ++ [strip page_text]
             else text_parts)
      end
  end.

(** The texts of the pages, when every [extract_text] returns. *)
Fixpoint page_texts (pages : list page) : result (list str) :=
  match pages with
  | [] => Ok []
  | p :: pages' =>
      match extract_text p, page_texts pages' with
      | Ok t, Ok ts => Ok (t :: ts)
      | Raise e, _ => Raise e
      | Ok _, Raise e => Raise e
      end
  end.

(** What parsing the payload of a file gives: [text_parts] after the
    loop, or the exception that PyPDF2 raised on the way. *)
Definition parsed_parts (file : UploadedFile) : result (list str) :=
  match PdfReader (f_payload file) with
  | Ok pages => collect_text pages []
  | Raise e => Raise e
  end.

(** The body of the [try] block of [_extract_pdf_text]. *)
Definition extract_pdf_text_body (file : UploadedFile) : M str :=
  count_pdf_read ;;;
  pages <- lift (PdfReader (f_payload file)) ;;
  text_parts <- lift (collect_text pages []) ;;
  ret (take 50000 (join [LF; LF] text_parts)).

(** [RecordService._extract_pdf_text] *)
Definition _extract_pdf_text (file : UploadedFile) : M str :=
  try_except (extract_pdf_text_body file)
    (fun e => logger_warning (lit "PDF extraction failed: %s") e ;;; ret []).

(** Modelled from the spec: [MedicalDocument.objects.create] on the base
    model of [apps.common.models.base], whose source is absent: the new row
    gets a fresh primary key and the creation time, is not soft-deleted,
    and joins the table. *)
Definition MedicalDocument_objects_create (pk : UUID) (now : Z)
    (user : UserId) (record : option MedicalRecord) (file : UploadedFile)
    (document_type : DocumentType) (extracted_text : str)
  : M MedicalDocument :=
  d <- get_db ;;
  let doc := {| d_id := pk; d_user := user; d_record := r_id <$> record;
                d_original_filename := f_name file;
                d_document_type := document_type;
                d_extracted_text := extracted_text;
                d_file_size := f_size file;
                d_is_deleted := false; d_created_at := now |} in
  set_db {| nulls_order_largest := nulls_order_largest d;
            medical_records := medical_records d;
            medical_documents := medical_documents d ++ [doc];
            audit_log := audit_log d |} ;;;
  ret doc.

(** Modelled from the spec: [AuditService.log_action] of
    [apps.audit.services.audit_service], whose source is absent: the audit
    sink is an append-only log and one call appends one entry. *)
Definition AuditService_log_action (e : AuditEntry) : M unit :=
  d <- get_db ;;
  set_db {| nulls_order_largest := nulls_order_largest d;
            medical_records := medical_records d;
            medical_documents := medical_documents d;
            audit_log := audit_log d ++ [e] |}.

(** [RecordService.upload_document]; [pk] and [now] are the key and the
    time that the creation of the row draws. *)
Definition upload_document (pk : UUID) (now : Z) (user : UserId)
    (file : UploadedFile) (document_type : DocumentType)
    (record : option MedicalRecord) (ip_address : option str)
    (user_agent : str) : M MedicalDocument :=
  atomic (
    extracted_text <-
      (if endswith (lower (f_name file)) (lit ".pdf")
       then _extract_pdf_text file
       else ret []) ;;
    doc <- MedicalDocument_objects_create pk now user record file
             document_type extracted_text ;;
    AuditService_log_action
      {| a_user_id := user; a_action := lit "CREATE";
         a_resource_type := lit "MedicalDocument";
         a_resource_id := d_id doc;
         a_ip_address := ip_address; a_user_agent := user_agent;
         a_changes :=
           [ (lit "filename", f_name file);
             (lit "document_type", DocumentType_value document_type);
             (lit "extracted_length",
              decimal (N.of_nat (length extracted_text))) ] |} ;;;
    ret doc).

(* ---------------------------------------------------------------- *)
(** ** The upload view *)

(** The parts of the request that [MedicalDocumentUploadView.post] reads:
    the user, [request.FILES.get("file")], the two form fields of
    [request.data], and two entries of [request.META]. *)
Record Request := {
  req_user : UserId;
  req_file : option UploadedFile;
  req_document_type : option str;
  req_record_id : option str;
  req_REMOTE_ADDR : option str;
  req_HTTP_USER_AGENT : option str
}.

Inductive Body :=
  | ErrorBody (error : str)
  | DocumentBody (doc : MedicalDocument).

Record Response := { status_code : N; body : Body }.

(** [UploadDocumentSerializer(data=request.data).is_valid(raise_exception=True)]:
    a field that is missing or blank takes its default, [document_type]
    must be the value of a member of [DocumentType], [record_id] must
    parse as a UUID. *)
Definition UploadDocumentSerializer_validated_data (request : Request)
  : result (DocumentType * option UUID) :=
  let document_type :=
    match req_document_type request with
    | None | Some [] => Some DOC_OTHER
    | Some s =>
        head (filter (fun t => DocumentType_value t = s) DocumentType_members)
    end in
  let record_id :=
    match req_record_id request with
    | None | Some [] => Some None
    | Some s => Some <$> to_uuid s
    end in
  match document_type, record_id with
  | Some t, Some r => Ok (t, r)
  | _, _ => Raise (Exception (lit "ValidationError"))
  end.

(** [bool(file)]: a Django [File] is truthy when it has a name. *)
Definition file_truthy (file : UploadedFile) : bool := truthy (f_name file).

(** [MedicalDocumentUploadView.post] *)
Definition post (pk : UUID) (now : Z) (request : Request) : M Response :=
  match req_file request with
  | Some file =>
      if negb (file_truthy file) then
        ret {| status_code := 400; body := ErrorBody (lit "File is required.") |}
      else if (20 * 1024 * 1024 <? f_size file)%N then
        ret {| status_code := 400;
               body := ErrorBody (lit "File must be smaller than 20MB.") |}
      else
        data <- lift (UploadDocumentSerializer_validated_data request) ;;
        d <- get_db ;;
        let record :=
          match data.2 with
          | Some record_id =>
              head (filter (fun r => r_id r = record_id
                                     /\ r_user r = req_user request
                                     /\ r_is_deleted r = false)
                           (medical_records d))
          | None => None
          end in
        doc <- upload_document pk now (req_user request) file data.1 record
                 (req_REMOTE_ADDR request)
                 (default [] (req_HTTP_USER_AGENT request)) ;;
        ret {| status_code := 201; body := DocumentBody doc |}
  | None =>
      ret {| status_code := 400; body := ErrorBody (lit "File is required.") |}
  end.

End Service.

(* ================================================================== *)
(** * Medical records: create, update, soft delete, read *)
(* ================================================================== *)

(** [setattr(record, field, value)], one definition for each column that
    the service assigns. *)
Definition set_title (r : MedicalRecord) (v : str) : MedicalRecord :=
  {| r_id := r_id r; r_user := r_user r; r_record_type := r_record_type r;
     r_title := v; r_description := r_description r;
     r_date_recorded := r_date_recorded r; r_provider := r_provider r;
     r_status := r_status r; r_severity := r_severity r; r_data := r_data r;
     r_is_deleted := r_is_deleted r; r_created_at := r_created_at r |}.

Definition set_description (r : MedicalRecord) (v : str) : MedicalRecord :=
  {| r_id := r_id r; r_user := r_user r; r_record_type := r_record_type r;
     r_title := r_title r; r_description := v;
     r_date_recorded := r_date_recorded r; r_provider := r_provider r;
     r_status := r_status r; r_severity := r_severity r; r_data := r_data r;
     r_is_deleted := r_is_deleted r; r_created_at := r_created_at r |}.

Definition set_record_type (r : MedicalRecord) (v : RecordType) : MedicalRecord :=
  {| r_id := r_id r; r_user := r_user r; r_record_type := v;
     r_title := r_title r; r_description := r_description r;
     r_date_recorded := r_date_recorded r; r_provider := r_provider r;
     r_status := r_status r; r_severity := r_severity r; r_data := r_data r;
     r_is_deleted := r_is_deleted r; r_created_at := r_created_at r |}.

Definition set_date_recorded (r : MedicalRecord) (v : option date) : MedicalRecord :=
  {| r_id := r_id r; r_user := r_user r; r_record_type := r_record_type r;
     r_title := r_title r; r_description := r_description r;
     r_date_recorded := v; r_provider := r_provider r;
     r_status := r_status r; r_severity := r_severity r; r_data := r_data r;
     r_is_deleted := r_is_deleted r; r_created_at := r_created_at r |}.

Definition set_provider (r : MedicalRecord) (v : str) : MedicalRecord :=
  {| r_id := r_id r; r_user := r_user r; r_record_type := r_record_type r;
     r_title := r_title r; r_description := r_description r;
     r_date_recorded := r_date_recorded r; r_provider := v;
     r_status := r_status r; r_severity := r_severity r; r_data := r_data r;
     r_is_deleted := r_is_deleted r; r_created_at := r_created_at r |}.

Definition set_status (r : MedicalRecord) (v : option Status) : MedicalRecord :=
  {| r_id := r_id r; r_user := r_user r; r_record_type := r_record_type r;
     r_title := r_title r; r_description := r_description r;
     r_date_recorded := r_date_recorded r; r_provider := r_provider r;
     r_status := v; r_severity := r_severity r; r_data := r_data r;
     r_is_deleted := r_is_deleted r; r_created_at := r_created_at r |}.

Definition set_severity (r : MedicalRecord) (v : option Severity) : MedicalRecord :=
  {| r_id := r_id r; r_user := r_user r; r_record_type := r_record_type r;
     r_title := r_title r; r_description := r_description r;
     r_date_recorded := r_date_recorded r; r_provider := r_provider r;
     r_status := r_status r; r_severity := v; r_data := r_data r;
     r_is_deleted := r_is_deleted r; r_created_at := r_created_at r |}.

Definition set_data (r : MedicalRecord) (v : JSONData) : MedicalRecord :=
  {| r_id := r_id r; r_user := r_user r; r_record_type := r_record_type r;
     r_title := r_title r; r_description := r_description r;
     r_date_recorded := r_date_recorded r; r_provider := r_provider r;
     r_status := r_status r; r_severity := r_severity r; r_data := v;
     r_is_deleted := r_is_deleted r; r_created_at := r_created_at r |}.

Definition set_is_deleted (r : MedicalRecord) (v : bool) : MedicalRecord :=
  {| r_id := r_id r; r_user := r_user r; r_record_type := r_record_type r;
     r_title := r_title r; r_description := r_description r;
     r_date_recorded := r_date_recorded r; r_provider := r_provider r;
     r_status := r_status r; r_severity := r_severity r; r_data := r_data r;
     r_is_deleted := v; r_created_at := r_created_at r |}.

(** Modelled from the spec: [MedicalRecord.objects.create] on the base
    model of [apps.common.models.base], whose source is absent: the new row
    gets a fresh primary key and the creation time, is not soft-deleted,
    and joins the table. *)
Definition MedicalRecord_objects_create (pk : UUID) (now : Z) (user : UserId)
    (record_type : RecordType) (title description : str)
    (date_recorded : option date) (provider : str) (status : option Status)
    (severity : option Severity) (data : JSONData)
  : M MedicalRecord :=
  d <- get_db ;;
  let record := {| r_id := pk; r_user := user; r_record_type := record_type;
                   r_title := title; r_description := description;
                   r_date_recorded := date_recorded; r_provider := provider;
                   r_status := status; r_severity := severity; r_data := data;
                   r_is_deleted := false; r_created_at := now |} in
  set_db {| nulls_order_largest := nulls_order_largest d;
            medical_records := medical_records d ++ [record];
            medical_documents := medical_documents d;
            audit_log := audit_log d |} ;;;
  ret record.

(** [data or {}]: [None] and every falsy value give the empty dict. *)
Definition data_or_empty (data : option JSONData) : JSONData :=
  match data with
  | Some v => if JSON_truthy v then v else JObject []
  | None => JObject []
  end.

(** [RecordService.create_record]; [data] is [None] or a JSON value. *)
Definition create_record (pk : UUID) (now : Z) (user : UserId)
    (record_type : RecordType) (title description : str)
    (date_recorded : option date) (provider : str) (status : option Status)
    (severity : option Severity) (data : option JSONData)
    (ip_address : option str) (user_agent : str) : M MedicalRecord :=
  record <- MedicalRecord_objects_create pk now user record_type title
              description date_recorded provider status severity
              (data_or_empty data) ;;
  AuditService_log_action
    {| a_user_id := user; a_action := lit "CREATE";
       a_resource_type := lit "MedicalRecord"; a_resource_id := r_id record;
       a_ip_address := ip_address; a_user_agent := user_agent;
       a_changes := [ (lit "record_type", RecordType_value record_type);
                      (lit "title", title) ] |} ;;;
  ret record.

(** [record.save()]: the row of the same primary key takes every column of
    the object; without such a row the object is inserted. *)
Definition save (record : MedicalRecord) : M unit :=
  d <- get_db ;;
  let rows := medical_records d in
  let rows' :=
    if bool_decide (Exists (fun r => r_id r = r_id record) rows)
    then map (fun r => if decide (r_id r = r_id record) then record else r) rows
    else rows ++ [record] in
  set_db {| nulls_order_largest := nulls_order_largest d;
            medical_records := rows';
            medical_documents := medical_documents d;
            audit_log := audit_log d |}.

(** [record.save(update_fields=["is_deleted", "updated_at"])]: only the
    flag is written to the row of the same primary key; Django raises when no
    row is affected. *)
Definition save_is_deleted (record : MedicalRecord) : M unit :=
  d <- get_db ;;
  let rows := medical_records d in
  if bool_decide (Exists (fun r => r_id r = r_id record) rows)
  then
    set_db {| nulls_order_largest := nulls_order_largest d;
              medical_records :=
                map (fun r => if decide (r_id r = r_id record)
                              then set_is_deleted r (r_is_deleted record)
                              else r) rows;
              medical_documents := medical_documents d;
              audit_log := audit_log d |}
  else
    lift (Raise (Exception
                   (lit "Save with update_fields did not affect any rows."))).

(** The keys of [allowed_fields], in the order of the list. *)
Inductive RecordField :=
  | F_title | F_description | F_record_type | F_date_recorded
  | F_provider | F_status | F_severity | F_data.

Definition allowed_fields : list RecordField :=
  [F_title; F_description; F_record_type; F_date_recorded;
   F_provider; F_status; F_severity; F_data].

(** The dict [updates] as the view passes it, the validated data of
    [UpdateRecordSerializer]: each declared key is absent ([None]) or holds
    a value of the type of its column. *)
Record Updates := {
  u_title : option str;
  u_description : option str;
  u_record_type : option RecordType;
  u_date_recorded : option (option date);
  u_provider : option str;
  u_status : option (option Status);
  u_severity : option (option Severity);
  u_data : option JSONData
}.

(** [str(value)] for the values of the columns. *)
Definition str_of_date (d : option date) : str :=
  match d with Some d => date_str d | None => lit "None" end.
Definition str_of_status (s : option Status) : str :=
  match s with Some s => Status_value s | None => [] end.
Definition str_of_severity (s : option Severity) : str :=
  match s with Some s => Severity_value s | None => [] end.

Section update.
(** [str] of the value of [data], the interpreter's. *)
Variable str_of_dict : JSONData -> str.

(** One turn of [for field in allowed_fields]: when the key is in
    [updates], the attribute is set and [changed] gets the key with the
    [str] of the value. *)
Definition update_step (updates : Updates)
    (st : MedicalRecord * list (str * str)) (field : RecordField)
  : MedicalRecord * list (str * str) :=
  let '(record, changed) := st in
  match field with
  | F_title =>
      match u_title updates with
      | Some v => (set_title record v, changed ++ [(lit "title", v)])
      | None => st
      end
  | F_description =>
      match u_description updates with
      | Some v => (set_description record v, changed ++ [(lit "description", v)])
      | None => st
      end
  | F_record_type =>
      match u_record_type updates with
      | Some v => (set_record_type record v,
                   changed ++ [(lit "record_type", RecordType_value v)])
      | None => st
      end
  | F_date_recorded =>
      match u_date_recorded updates with
      | Some v => (set_date_recorded record v,
                   changed ++ [(lit "date_recorded", str_of_date v)])
      | None => st
      end
  | F_provider =>
      match u_provider updates with
      | Some v => (set_provider record v, changed ++ [(lit "provider", v)])
      | None => st
      end
  | F_status =>
      match u_status updates with
      | Some v => (set_status record v,
                   changed ++ [(lit "status", str_of_status v)])
      | None => st
      end
  | F_severity =>
      match u_severity updates with
      | Some v => (set_severity record v,
                   changed ++ [(lit "severity", str_of_severity v)])
      | None => st
      end
  | F_data =>
      match u_data updates with
      | Some v => (set_data record v, changed ++ [(lit "data", str_of_dict v)])
      | None => st
      end
  end.

(** [RecordService.update_record] *)
Definition update_record (record : MedicalRecord) (user : UserId)
    (updates : Updates) (ip_address : option str) (user_agent : str)
  : M MedicalRecord :=
  let '(record, changed) :=
    fold_left (update_step updates) allowed_fields (record, []) in
  save record ;;;
  AuditService_log_action
    {| a_user_id := user; a_action := lit "UPDATE";
       a_resource_type := lit "MedicalRecord"; a_resource_id := r_id record;
       a_ip_address := ip_address; a_user_agent := user_agent;
       a_changes := changed |} ;;;
  ret record.
End update.

(** [RecordService.soft_delete_record] *)
Definition soft_delete_record (record : MedicalRecord) (user : UserId)
    (ip_address : option str) (user_agent : str) : M unit :=
  let record := set_is_deleted record true in
  save_is_deleted record ;;;
  AuditService_log_action
    {| a_user_id := user; a_action := lit "DELETE";
       a_resource_type := lit "MedicalRecord"; a_resource_id := r_id record;
       a_ip_address := ip_address; a_user_agent := user_agent;
       a_changes := [] |}.

(** The key of [ordering = ["-date_recorded", "-created_at"]], also the
    order of [get_user_records]. *)
Definition record_recency_key (nulls_largest : bool) (r : MedicalRecord)
  : Z * (Z * Z * Z) * Z :=
  (date_desc_key nulls_largest (r_date_recorded r), - r_created_at r)%Z.

(** [RecordService.get_user_records]; [record_type] is the raw query
    parameter, and an absent or empty one does not filter. *)
Definition get_user_records (d : Database) (user : UserId)
    (record_type : option str) : list MedicalRecord :=
  let qs := active_records d user in
  let qs := match record_type with
            | None | Some [] => qs
            | Some t => filter (fun r => RecordType_value (r_record_type r) = t) qs
            end in
  order_by (record_recency_key (nulls_order_largest d)) qs.

(** [RecordService.get_record_detail]: [.first()] in the order of the
    model. *)
Definition get_record_detail (d : Database) (record_id : UUID) (user : UserId)
  : option MedicalRecord :=
  head (order_by (record_recency_key (nulls_order_largest d))
          (filter (fun r => r_id r = record_id /\ r_user r = user
                            /\ r_is_deleted r = false)
                  (medical_records d))).

(** [RecordService.get_user_documents] *)
Definition get_user_documents (d : Database) (user : UserId)
  : list MedicalDocument :=
  order_by document_order_key (active_documents d user).

(* ================================================================== *)
(** * The record views *)
(* ================================================================== *)

(** The body of a response of the record views: an error message, the
    data of [MedicalRecordSerializer] (the record and the documents that
    [get_documents] lists), the context, or nothing. *)
Inductive RecordBody :=
  | ErrorMessage (error : str)
  | RecordData (record : MedicalRecord) (documents : list MedicalDocument)
  | ContextData (context : str)
  | NoContent.

Record RecordResponse := { http_status : N; content : RecordBody }.

(** [MedicalRecordSerializer.get_documents]: the related documents of the
    record, [docs.filter(is_deleted=False)], in the order of the model. *)
Definition get_documents (d : Database) (obj : MedicalRecord)
  : list MedicalDocument :=
  order_by document_order_key
    (filter (fun doc => d_record doc = Some (r_id obj) /\ d_is_deleted doc = false)
            (medical_documents d)).

Definition MedicalRecordSerializer_data (d : Database) (record : MedicalRecord)
  : RecordBody :=
  RecordData record (get_documents d record).

Definition not_found : RecordResponse :=
  {| http_status := 404; content := ErrorMessage (lit "Record not found.") |}.

(** [MedicalRecordDetailView.get] *)
Definition detail_get (record_id : UUID) (user : UserId) : M RecordResponse :=
  d <- get_db ;;
  match get_record_detail d record_id user with
  | None => ret not_found
  | Some record =>
      ret {| http_status := 200; content := MedicalRecordSerializer_data d record |}
  end.

(** [MedicalRecordDetailView.delete] *)
Definition detail_delete (record_id : UUID) (user : UserId)
    (ip_address : option str) (user_agent : option str) : M RecordResponse :=
  d <- get_db ;;
  match get_record_detail d record_id user with
  | None => ret not_found
  | Some record =>
      soft_delete_record record user ip_address (default [] user_agent) ;;;
      ret {| http_status := 204; content := NoContent |}
  end.

(** The validated data of [CreateRecordSerializer]. *)
Record CreateData := {
  c_record_type : RecordType;
  c_title : str;
  c_description : str;
  c_date_recorded : option date;
  c_provider : str;
  c_status : option Status;
  c_severity : option Severity;
  c_data : JSONData
}.

(** [MedicalRecordListCreateView.create]; [validated] is what
    [serializer.is_valid(raise_exception=True)] leaves: the validated data,
    or the validation error that it raises. *)
Definition list_create (pk : UUID) (now : Z) (user : UserId)
    (validated : result CreateData) (ip_address : option str)
    (user_agent : option str) : M RecordResponse :=
  data <- lift validated ;;
  record <- create_record pk now user (c_record_type data) (c_title data)
              (c_description data) (c_date_recorded data) (c_provider data)
              (c_status data) (c_severity data) (Some (c_data data))
              ip_address (default [] user_agent) ;;
  d <- get_db ;;
  ret {| http_status := 201; content := MedicalRecordSerializer_data d record |}.

(** [MedicalRecordDetailView.patch]; the record is looked up before the
    request data is validated. *)
Definition detail_patch (str_of_dict : JSONData -> str)
    (record_id : UUID) (user : UserId) (validated : result Updates)
    (ip_address : option str) (user_agent : option str) : M RecordResponse :=
  d <- get_db ;;
  match get_record_detail d record_id user with
  | None => ret not_found
  | Some record =>
      updates <- lift validated ;;
      updated <- update_record str_of_dict record user updates ip_address
                   (default [] user_agent) ;;
      d' <- get_db ;;
      ret {| http_status := 200; content := MedicalRecordSerializer_data d' updated |}
  end.

(** [MedicalContextView.get]; an exception of the assembler leaves the
    view. *)
Definition context_get (user : UserId) : M RecordResponse :=
  d <- get_db ;;
  context <- lift (get_patient_medical_context d user) ;;
  ret {| http_status := 200; content := ContextData context |}.

(** The table after the rows of one key have been flagged as deleted. *)
Definition flag_deleted (record_id : UUID) (rows : list MedicalRecord)
  : list MedicalRecord :=
  map (fun r => if decide (r_id r = record_id) then set_is_deleted r true else r)
      rows.

(** The record that [update_record] builds from a record and the keys
    present in [updates]. *)
Definition updated_fields (record : MedicalRecord) (updates : Updates)
  : MedicalRecord :=
  {| r_id := r_id record; r_user := r_user record;
     r_record_type := default (r_record_type record) (u_record_type updates);
     r_title := default (r_title record) (u_title updates);
     r_description := default (r_description record) (u_description updates);
     r_date_recorded := default (r_date_recorded record) (u_date_recorded updates);
     r_provider := default (r_provider record) (u_provider updates);
     r_status := default (r_status record) (u_status updates);
     r_severity := default (r_severity record) (u_severity updates);
     r_data := default (r_data record) (u_data updates);
     r_is_deleted := r_is_deleted record; r_created_at := r_created_at record |}.

(** The keys present in [updates] with the [str] of their values, in the
    order of [allowed_fields]. *)
Definition changed_keys (str_of_dict : JSONData -> str)
    (updates : Updates) : list (str * str) :=
  option_list (pair (lit "title") <$> u_title updates)
  ++ option_list (pair (lit "description") <$> u_description updates)
  ++ option_list (pair (lit "record_type") <$>
                    (RecordType_value <$> u_record_type updates))
  ++ option_list (pair (lit "date_recorded") <$>
                    (str_of_date <$> u_date_recorded updates))
  ++ option_list (pair (lit "provider") <$> u_provider updates)
  ++ option_list (pair (lit "status") <$> (str_of_status <$> u_status updates))
  ++ option_list (pair (lit "severity") <$>
                    (str_of_severity <$> u_severity updates))
  ++ option_list (pair (lit "data") <$> (str_of_dict <$> u_data updates)).

(** The table after [record.save()]. *)
Definition saved_rows (record : MedicalRecord) (rows : list MedicalRecord)
  : list MedicalRecord :=
  if bool_decide (Exists (fun r => r_id r = r_id record) rows)
  then map (fun r => if decide (r_id r = r_id record) then record else r) rows
  else rows ++ [record].

(** The database without the rows of one key in the table of records. *)
Definition without_record (record_id : UUID) (d : Database) : Database :=
  {| nulls_order_largest := nulls_order_largest d;
     medical_records := filter (fun r => r_id r <> record_id) (medical_records d);
     medical_documents := medical_documents d;
     audit_log := audit_log d |}.

(** The extractor as the specification words it: strip the text of every
    unit, skip the units left without text, join the others with a blank
    line, cap. To be compared with [collect_text]. *)
Definition extract_as_specified (page_texts : list str) : str :=
  take 50000 (join [LF; LF] (filter (fun t => t <> []) (map strip page_texts))).

(** The items of a JSON object; no item for another value. *)
Definition data_items (data : JSONData) : list (str * str) :=
  match data with
  | JObject items => items
  | JOther _ _ => []
  end.

(** The record holds a truthy value that is not a dict. *)
Definition data_raises (r : MedicalRecord) : bool :=
  match r_data r with
  | JOther _ truth => truth
  | JObject _ => false
  end.

(** The exception that leaves the loop over the records, if any: that of
    the first record that holds a truthy value that is not a dict. *)
Fixpoint loop_exception (records : list MedicalRecord) : option exn :=
  match records with
  | [] => None
  | r :: rest =>
      match r_data r with
      | JOther kind true => Some (AttributeError kind)
      | _ => loop_exception rest
      end
  end.

(** The lines that one record contributes after its heading. *)
Definition record_lines (r : MedicalRecord) : list str :=
  summary_line r
  :: (if truthy (r_description r) then [details_line r] else [])
  ++ map data_line (data_items (r_data r)).

(** The maximal runs of consecutive records of one category, each with its
    category. *)
Fixpoint runs (records : list MedicalRecord)
  : list (RecordType * list MedicalRecord) :=
  match records with
  | [] => []
  | r :: rest =>
      match runs rest with
      | (t, g) :: gs =>
          if decide (t = r_record_type r) then (t, r :: g) :: gs
          else (r_record_type r, [r]) :: (t, g) :: gs
      | [] => [(r_record_type r, [r])]
      end
  end.

(** A heading, then the lines of the records of the run. *)
Definition run_lines (run : RecordType * list MedicalRecord) : list str :=
  record_heading run.1 :: concat (map record_lines run.2).

(** Neighbours in the list differ. *)
Fixpoint adjacent_distinct (l : list RecordType) : Prop :=
  match l with
  | a :: (b :: _) as tl => a <> b /\ adjacent_distinct tl
  | _ => True
  end.

(** A text without white space at either end. *)
Definition stripped (s : str) : Prop :=
  (forall c, head s = Some c -> isspace c = false)
  /\ (forall c, list.last s = Some c -> isspace c = false).

(** The world after one run of the extractor's [try] block. *)
Definition after_pdf_read (w : World) : World :=
  {| db := db w; warnings := warnings w; pdf_reads := S (pdf_reads w) |}.

(** The world after a run of the extractor that failed with [e]. *)
Definition after_failed_read (w : World) (e : exn) : World :=
  {| db := db w;
     warnings := warnings w ++ [(lit "PDF extraction failed: %s", e)];
     pdf_reads := S (pdf_reads w) |}.

(** [p] occurs in the text [s]. *)
Definition occurs_in (p s : str) : Prop :=
  exists before after, s = before ++ p ++ after.

(** The lines of a list of records when the loop enters it with
    [current_type = cur]. *)
Fixpoint lines_from (cur : option RecordType) (records : list MedicalRecord)
  : list str :=
  match records with
  | [] => []
  | r :: rest =>
      (if decide (Some (r_record_type r) = cur) then []
       else [record_heading (r_record_type r)])
      ++ record_lines r ++ lines_from (Some (r_record_type r)) rest
  end.

(** [a] is an earlier date than [b]. *)
Definition date_lt (a b : date) : Prop :=
  lexico (year a, month a, day a) (year b, month b, day b).

(** Two dates of records of one category may follow each other in this
    order: a later date first; a missing date before a date only where NULL
    sorts largest, after a date only where it sorts smallest. *)
Definition date_desc_order (nulls_largest : bool) (a b : option date) : Prop :=
  match a, b with
  | Some x, Some y => ~ date_lt x y
  | None, Some _ => nulls_largest = true
  | Some _, None => nulls_largest = false
  | None, None => True
  end.

(** The order of the query set: the stored category values ascending as
    strings, then the dates. *)
Definition query_order (nulls_largest : bool) (a b : MedicalRecord) : Prop :=
  lexico (RecordType_value (r_record_type a)) (RecordType_value (r_record_type b))
  \/ (r_record_type a = r_record_type b
      /\ date_desc_order nulls_largest (r_date_recorded a) (r_date_recorded b)).

(** The order the specification words: the position of the category in the
    enumeration ascending, then the date descending with missing dates
    last. *)
Definition enumeration_order (a b : MedicalRecord) : Prop :=
  RecordType_index (r_record_type a) < RecordType_index (r_record_type b)
  \/ (r_record_type a = r_record_type b
      /\ date_desc_order false (r_date_recorded a) (r_date_recorded b)).

(** The order of a listing of records: dates descend, with missing dates
    where the backend puts them, and rows of one date go latest created
    first. *)
Definition recency_order (nulls_largest : bool) (a b : MedicalRecord) : Prop :=
  date_desc_order nulls_largest (r_date_recorded a) (r_date_recorded b)
  /\ (r_date_recorded a = r_date_recorded b ->
      (r_created_at b <= r_created_at a)%Z).

(* ================================================================== *)
(** * Sample data *)
(* ================================================================== *)

Module Sample.

Definition alice : UserId := 7%N.
Definition bob : UserId := 8%N.

Definition record (user : UserId) (deleted : bool) (t : RecordType)
    (title : string) (d : option date) (description : str)
    (data : list (str * str)) : MedicalRecord :=
  {| r_id := 1; r_user := user; r_record_type := t; r_title := lit title;
     r_description := description; r_date_recorded := d; r_provider := [];
     r_status := Some ACTIVE; r_severity := None; r_data := JObject data;
     r_is_deleted := deleted; r_created_at := 0 |}.

Definition document (name : string) (text : str) (created : Z)
  : MedicalDocument :=
  {| d_id := 2; d_user := alice; d_record := None;
     d_original_filename := lit name; d_document_type := LAB_REPORT;
     d_extracted_text := text; d_file_size := 100;
     d_is_deleted := false; d_created_at := created |}.

Definition database (nulls_largest : bool) (rs : list MedicalRecord)
    (ds : list MedicalDocument) : Database :=
  {| nulls_order_largest := nulls_largest; medical_records := rs;
     medical_documents := ds; audit_log := [] |}.

Definition world (d : Database) : World :=
  {| db := d; warnings := []; pdf_reads := 0 |}.

(** One active record of alice, used where only documents matter. *)
Definition asthma : MedicalRecord :=
  record alice false CONDITION "Asthma" (Some (Date 2021 3 9)) [] [].

(** Seven documents with text, stored in no particular order. *)
Definition seven_documents : Database :=
  database false [asthma]
    [ document "d3.pdf" (lit "three") 3; document "d7.pdf" (lit "seven") 7;
      document "d1.pdf" (lit "one") 1; document "d5.pdf" (lit "five") 5;
      document "d2.pdf" (lit "two") 2; document "d6.pdf" (lit "six") 6;
      document "d4.pdf" (lit "four") 4 ].

(** A record with a description of 600 characters and a document with a
    text of 2,500. *)
Definition long_fields : Database :=
  database false
    [ record alice false CONDITION "Asthma" None (repeat 97%N 600) [] ]
    [ document "long.pdf" (repeat 98%N 2500) 1 ].

(** Five recent documents whose text is white space only, and an older
    one with a report. *)
Definition blank_documents : Database :=
  database false [asthma]
    [ document "report.pdf" (lit "Hemoglobin 13.5") 1;
      document "b1.pdf" [32%N] 2; document "b2.pdf" [10%N; 10%N] 3;
      document "b3.pdf" [9%N] 4; document "b4.pdf" [32%N; 32%N] 5;
      document "b5.pdf" [160%N] 6 ].

(** A condition and an allergy, both active and undated. *)
Definition two_categories : Database :=
  database false
    [ record alice false CONDITION "Asthma" None [] [];
      record alice false ALLERGY "Pollen" None [] [] ]
    [].

(** Only a deleted record and a record of another user, and a document
    with text. *)
Definition no_active_record : Database :=
  database false
    [ record alice true CONDITION "Asthma" None [] [];
      record bob false ALLERGY "Pollen" None [] [] ]
    [ document "scan.pdf" (lit "Hemoglobin 13.5") 5 ].

Definition long_record : MedicalRecord :=
  record alice false CONDITION "Asthma" None (repeat 97%N 600) [].
Definition long_document : MedicalDocument :=
  document "long.pdf" (repeat 98%N 2500) 1.
Definition blank_document : MedicalDocument :=
  document "b2.pdf" [10%N; 10%N] 3.

(** A stand-in for PyPDF2 on which the extractor can be run: a payload
    is a PDF when it starts with a percent sign, every byte after it is a
    page, and the text of a page is the character of its byte. *)
Definition reader : Runtime :=
  {| page := Byte.byte;
     PdfReader := fun payload =>
       match payload with
       | Byte.x25 :: pages => Ok pages
       | _ => Raise (Exception (lit "EOF marker not found"))
       end;
     extract_text := fun b => Ok [Byte.to_N b];
     lower := ascii_lower;
     to_uuid := fun _ => None |}.

Definition file (name : string) (size : N) (payload : list Byte.byte)
  : UploadedFile :=
  {| f_name := lit name; f_size := size; f_payload := payload |}.

(** Not a PDF, under a name that ends in .PDF. *)
Definition corrupt_pdf : UploadedFile :=
  file "scan.PDF" 4 [Byte.x00; Byte.x01; Byte.x02; Byte.x03].

(** Three pages: "a", a space, "b". *)
Definition spaced_pdf : UploadedFile :=
  file "notes.pdf" 4 [Byte.x25; Byte.x61; Byte.x20; Byte.x62].

(** 20,000 pages of one letter each. *)
Definition big_pdf : UploadedFile :=
  file "big.pdf" 20001 (Byte.x25 :: repeat Byte.x61 20000).

(** A world with empty tables and an empty log. *)
Definition empty_world : World := world (database false [] []).

(** An upload of alice with a file of the given declared size. *)
Definition upload (size : N) : Request :=
  {| req_user := alice;
     req_file := Some (file "scan.pdf" size [Byte.x25; Byte.x61]);
     req_document_type := Some (lit "LAB_REPORT");
     req_record_id := None;
     req_REMOTE_ADDR := None;
     req_HTTP_USER_AGENT := None |}.

(** A row of the table of records under a given key. *)
Definition row (id : UUID) (user : UserId) (deleted : bool) (t : RecordType)
    (title : string) (data : list (str * str)) : MedicalRecord :=
  {| r_id := id; r_user := user; r_record_type := t; r_title := lit title;
     r_description := []; r_date_recorded := None; r_provider := [];
     r_status := Some ACTIVE; r_severity := None; r_data := JObject data;
     r_is_deleted := deleted; r_created_at := Z.of_N id |}.

(** Alice's asthma with a dose, Bob's allergy, and a record that Alice
    deleted. *)
Definition inhaler : MedicalRecord :=
  row 11 alice false CONDITION "Asthma" [(lit "dose", lit "2 puffs")].

Definition clinic : World :=
  world (database false
           [ inhaler;
             row 12 bob false ALLERGY "Pollen" [];
             row 13 alice true PROCEDURE "Appendectomy" [] ]
           [ document "scan.pdf" (lit "Hemoglobin 13.5") 5 ]).

(** The validated data of a POST and of a PATCH. *)
Definition new_record : CreateData :=
  {| c_record_type := MEDICATION; c_title := lit "Salbutamol";
     c_description := []; c_date_recorded := Some (Date 2024 5 17);
     c_provider := []; c_status := Some ACTIVE; c_severity := None;
     c_data := JObject [] |}.

Definition retitle : Updates :=
  {| u_title := Some (lit "Asthma, mild"); u_description := None;
     u_record_type := None; u_date_recorded := None; u_provider := None;
     u_status := None; u_severity := Some (Some MILD); u_data := None |}.

(** A stand-in for [str] on the values of [data]. *)
Definition dict_str (data : JSONData) : str :=
  match data with
  | JObject items =>
      lit "{"
      ++ join (lit ", ") (map (fun kv => kv.1 ++ lit ": " ++ kv.2) items)
      ++ lit "}"
  | JOther _ _ => lit "[...]"
  end.

(** A record of alice whose [data] is a non-empty JSON array, as
    [CreateRecordSerializer] lets it in. *)
Definition array_record : MedicalRecord :=
  {| r_id := 14; r_user := alice; r_record_type := VITAL;
     r_title := lit "Pulse"; r_description := []; r_date_recorded := None;
     r_provider := []; r_status := Some ACTIVE; r_severity := None;
     r_data := JOther JArray true; r_is_deleted := false; r_created_at := 14 |}.

Definition array_data : Database :=
  database false [inhaler; array_record]
    [ document "scan.pdf" (lit "Hemoglobin 13.5") 5 ].

(** A record whose one data value has 12,000 characters. *)
Definition long_value : Database :=
  database false
    [ row 15 alice false LAB_RESULT "Panel" [(lit "raw", repeat 48%N 12000)] ]
    [].

(** Seven documents of alice with text, and three that do not count
    although they are the latest: one of bob, one that alice deleted, one
    without text. *)
Definition crowded : Database :=
  database false [asthma]
    [ document "d3.pdf" (lit "three") 3; document "d7.pdf" (lit "seven") 7;
      {| d_id := 3; d_user := bob; d_record := None;
         d_original_filename := lit "bob.pdf"; d_document_type := LAB_REPORT;
         d_extracted_text := lit "of bob"; d_file_size := 100;
         d_is_deleted := false; d_created_at := 10 |};
      document "d1.pdf" (lit "one") 1; document "d5.pdf" (lit "five") 5;
      {| d_id := 4; d_user := alice; d_record := None;
         d_original_filename := lit "old.pdf"; d_document_type := LAB_REPORT;
         d_extracted_text := lit "deleted"; d_file_size := 100;
         d_is_deleted := true; d_created_at := 9 |};
      document "d2.pdf" (lit "two") 2; document "d6.pdf" (lit "six") 6;
      document "photo.jpg" [] 8; document "d4.pdf" (lit "four") 4 ].

(** Two allergies of alice, one dated and one not, on a backend that sorts
    NULL largest. *)
Definition undated_first : Database :=
  database true
    [ record alice false ALLERGY "Pollen" (Some (Date 2020 1 2)) [] [];
      record alice false ALLERGY "Latex" None [] [] ]
    [].

(** A reader like [reader] for which the text of a zero byte cannot be
    extracted. *)
Definition fragile_reader : Runtime :=
  {| page := Byte.byte;
     PdfReader := fun payload =>
       match payload with
       | Byte.x25 :: pages => Ok pages
       | _ => Raise (Exception (lit "EOF marker not found"))
       end;
     extract_text := fun b =>
       match b with
       | Byte.x00 => Raise (Exception (lit "unsupported encoding"))
       | _ => Ok [Byte.to_N b]
       end;
     lower := ascii_lower;
     to_uuid := fun _ => None |}.

(** A first page "a", then a page that cannot be read. *)
Definition damaged_pdf : UploadedFile :=
  file "damaged.pdf" 3 [Byte.x25; Byte.x61; Byte.x00].

Definition photo : UploadedFile :=
  file "photo.JPG" 3 [Byte.x25; Byte.x61; Byte.x62].

End Sample.

(* ================================================================== *)
(** * Lemmas on strings and query sets *)
(* ================================================================== *)

(** Goals on the lexicographic order of tuples of numbers. *)
Ltac lexico_arith :=
  cbv beta iota delta [lexico prod_lexico Z_lexico N_lexico fst snd] in *;
  repeat (destruct_or? || destruct_and?); simplify_eq/=; lia.


Section order_by_facts.
Context {A K : Type} `{Lexico K} `{!StrictOrder (@lexico K _)}
        `{!TrichotomyT (@lexico K _)} `{!EqDecision K}.
Variable key : A -> K.

Let R : relation A := fun a b => key_le (key a) (key b).

#[local] Instance order_by_rel_total : Total R.
Proof.
  intros a b. unfold R, key_le.
  destruct (trichotomyT lexico (key a) (key b)) as [[?|?]|?]; auto.
Qed.

#[local] Instance order_by_rel_trans : Transitive R.
Proof.
  intros a b c. unfold R, key_le. intros [Hab|Hab] [Hbc|Hbc].
  - left. by trans (key b).
  - left. by rewrite <- Hbc.
  - left. by rewrite Hab.
  - right. congruence.
Qed.

Lemma order_by_Permutation l : order_by key l ≡ₚ l.
Proof. apply merge_sort_Permutation. Qed.

Lemma order_by_StronglySorted l : StronglySorted R (order_by key l).
Proof. apply (StronglySorted_merge_sort R). Qed.

Lemma order_by_nil l : order_by key l = [] <-> l = [].
Proof.
  split; intros E.
  - apply Permutation_nil_r. rewrite <- E. symmetry. apply order_by_Permutation.
  - subst l. reflexivity.
Qed.

Lemma order_by_elem_of a l : a ∈ order_by key l <-> a ∈ l.
Proof. by rewrite order_by_Permutation. Qed.

Lemma order_by_length l : length (order_by key l) = length l.
Proof. by rewrite order_by_Permutation. Qed.
End order_by_facts.

Lemma take_prefix {A} n (l : list A) : take n l `prefix_of` l.
Proof. exists (drop n l). by rewrite take_drop. Qed.

(** A part of a joined text occurs in it. *)
Lemma join_contains sep (parts : list str) p :
  p ∈ parts -> exists before after, join sep parts = before ++ p ++ after.
Proof.
  induction parts as [|q parts IH]; intros Hin; [by apply elem_of_nil in Hin|].
  apply elem_of_cons in Hin as [->|Hin].
  - exists []. destruct parts as [|q' parts].
    + exists []. simpl. by rewrite app_nil_r.
    + by exists (sep ++ join sep (q' :: parts)).
  - destruct (IH Hin) as (b & a & E). destruct parts as [|q' parts].
    + by apply elem_of_nil in Hin.
    + exists (q ++ sep ++ b), a.
      change (join sep (q :: q' :: parts)) with (q ++ sep ++ join sep (q' :: parts)).
      rewrite E. by rewrite <- !app_assoc.
Qed.

(* ================================================================== *)
(** * The record loop *)
(* ================================================================== *)

Lemma fold_append_lines {A} (f : A -> str) (items : list A) (sections : list str) :
  fold_left (fun acc x => acc ++ [f x]) items sections = sections ++ map f items.
Proof.
  revert sections. induction items as [|x items IH]; intros sections; simpl.
  - by rewrite app_nil_r.
  - rewrite IH. by rewrite <- app_assoc.
Qed.

(** One turn of the loop raises on a truthy value of [data] that is not a
    dict; otherwise it appends the heading when the category changes and
    then the lines of the record. *)
Lemma record_step_lines sections cur r :
  record_step (sections, cur) r
  = match loop_exception [r] with
    | Some e => Raise e
    | None =>
        Ok (sections
              ++ (if decide (Some (r_record_type r) = cur) then []
                  else [record_heading (r_record_type r)])
              ++ record_lines r,
            Some (r_record_type r))
    end.
Proof.
  unfold record_step, record_lines, data_items. cbn [loop_exception].
  destruct (decide (Some (r_record_type r) <> cur)) as [Hne|Heq];
    destruct (decide (Some (r_record_type r) = cur)) as [Heq'|Hne'];
    try (exfalso; tauto);
    try rewrite Heq';
    destruct (truthy (r_description r));
    destruct (r_data r) as [[|kv items]|kind [|]];
    cbn [JSON_truthy]; rewrite ?fold_append_lines; simpl;
    by rewrite ?app_nil_r, <- ?app_assoc.
Qed.

Lemma record_loop_lines records sections cur :
  match record_loop records (sections, cur) with
  | Ok st => loop_exception records = None
             /\ st.1 = sections ++ lines_from cur records
  | Raise e => loop_exception records = Some e
  end.
Proof.
  revert sections cur. induction records as [|r rest IH]; intros sections cur.
  - simpl. by rewrite app_nil_r.
  - cbn [record_loop lines_from]. rewrite record_step_lines.
    cbn [loop_exception].
    destruct (r_data r) as [items|kind [|]]; [|done|];
      (match goal with |- context [record_loop rest (?s, ?c)] =>
         specialize (IH s c); destruct (record_loop rest (s, c)) as [st|e]
       end; [|done]);
      destruct IH as [Hno Hst]; (split; [done|]); rewrite Hst;
      by rewrite <- !app_assoc.
Qed.

(** No exception leaves the loop exactly when no record holds a truthy
    value of [data] that is not a dict. *)
Lemma loop_exception_None records :
  loop_exception records = None <-> existsb data_raises records = false.
Proof.
  induction records as [|r rest IH]; [done|].
  cbn [loop_exception existsb]. unfold data_raises at 1.
  destruct (r_data r) as [items|kind [|]]; cbn [orb]; [done| |done].
  split; discriminate.
Qed.

(** The exception that leaves the loop is that of a record of the list. *)
Lemma loop_exception_Some records e :
  loop_exception records = Some e ->
  exists r kind,
    r ∈ records /\ r_data r = JOther kind true /\ e = AttributeError kind.
Proof.
  induction records as [|r rest IH]; [done|]. cbn [loop_exception].
  destruct (r_data r) as [items|kind [|]] eqn:E.
  - intros H. destruct (IH H) as (q & k & Hq & Hk & He).
    exists q, k. split; [by apply list_elem_of_further | done].
  - intros [= <-]. exists r, kind. split; [constructor | done].
  - intros H. destruct (IH H) as (q & k & Hq & Hk & He).
    exists q, k. split; [by apply list_elem_of_further | done].
Qed.

(** The loop returns the lines of the records unless one of them holds a
    truthy value of [data] that is not a dict. *)
Lemma record_sections_lines records :
  record_sections records
  = match loop_exception records with
    | Some e => Raise e
    | None => Ok (lines_from None records)
    end.
Proof.
  unfold record_sections.
  generalize (record_loop_lines records [] None).
  destruct (record_loop records ([], None)) as [st|e].
  - intros [-> Hst]. by rewrite Hst.
  - by intros ->.
Qed.

Lemma context_sections_lines (d : Database) (user : UserId) :
  context_sections d user
  = match loop_exception (records_qs d user) with
    | Some e => Raise e
    | None => Ok (lines_from None (records_qs d user)
                  ++ document_sections (documents_qs d user))
    end.
Proof.
  unfold context_sections. rewrite record_sections_lines.
  by destruct (loop_exception (records_qs d user)).
Qed.

Lemma context_sections_Ok (d : Database) (user : UserId) sections :
  context_sections d user = Ok sections ->
  existsb data_raises (records_qs d user) = false
  /\ sections = lines_from None (records_qs d user)
                ++ document_sections (documents_qs d user).
Proof.
  rewrite context_sections_lines.
  destruct (loop_exception (records_qs d user)) eqn:E; [done|].
  intros [= <-]. split; [by apply loop_exception_None | done].
Qed.

(** When no record holds a truthy value of [data] that is not a dict, the
    sections are joined. *)
Lemma context_sections_returns (d : Database) (user : UserId) :
  existsb data_raises (records_qs d user) = false ->
  context_sections d user
  = Ok (lines_from None (records_qs d user)
        ++ document_sections (documents_qs d user)).
Proof.
  intros Hno. apply loop_exception_None in Hno.
  by rewrite context_sections_lines, Hno.
Qed.

Lemma lines_from_runs cur records :
  lines_from cur records
  = match runs records with
    | [] => []
    | (t, g) :: gs =>
        (if decide (Some t = cur) then concat (map record_lines g)
         else run_lines (t, g))
        ++ concat (map run_lines gs)
    end.
Proof.
  revert cur. induction records as [|r rest IH]; intros cur; [done|].
  cbn [lines_from runs]. rewrite IH. destruct (runs rest) as [|[t g] gs].
  - simpl. destruct (decide (Some (r_record_type r) = cur)); simpl;
      by rewrite ?app_nil_r.
  - destruct (decide (t = r_record_type r)) as [->|Hne];
      destruct (decide (Some _ = Some (r_record_type r))) as [Heq|Hne'];
      try congruence;
      destruct (decide (Some (r_record_type r) = cur)); simpl;
      by rewrite ?app_nil_r, <- ?app_assoc.
Qed.

Lemma runs_concat records : concat (map snd (runs records)) = records.
Proof.
  induction records as [|r rest IH]; [done|]. simpl.
  destruct (runs rest) as [|[t g] gs]; [by simpl in *; subst|].
  destruct (decide (t = r_record_type r)); simpl in *; by rewrite IH.
Qed.

Lemma runs_uniform records :
  Forall (fun run => run.2 <> [] /\ Forall (fun r => r_record_type r = run.1) run.2)
         (runs records).
Proof.
  induction records as [|r rest IH]; [constructor|]. simpl.
  destruct (runs rest) as [|[t g] gs].
  - repeat constructor. done.
  - apply Forall_cons_1 in IH as [[Hne Hall] IH].
    destruct (decide (t = r_record_type r)) as [->|].
    + constructor; [|done]. split; [done|]. by constructor.
    + constructor; [by repeat constructor|]. by constructor.
Qed.

Lemma runs_adjacent_distinct records :
  adjacent_distinct (map fst (runs records)).
Proof.
  induction records as [|r rest IH]; [done|]. simpl.
  destruct (runs rest) as [|[t g] gs]; [done|].
  destruct (decide (t = r_record_type r)) as [->|Hne]; [done|].
  simpl. split; [congruence|done].
Qed.

(** C8. Unless a record makes the loop raise, which a record does exactly
    when it holds a truthy value of [data] that is not a JSON object, the
    record section is, for each maximal run of consecutive records of one
    category in the order given, one heading followed by the lines of the
    records of the run: the runs partition the records in order, each is
    non-empty and of one category, neighbouring runs differ in category; and
    the records MEDICATION "A", ALLERGY "B", MEDICATION "C" give a
    Medication heading, A, an Allergy heading, B, and a second Medication
    heading, C. *)
Theorem heading_per_run (records : list MedicalRecord) :
  record_sections records
  = match loop_exception records with
    | Some e => Raise e
    | None => Ok (concat (map run_lines (runs records)))
    end
  /\ (loop_exception records = None
      <-> Forall (fun r => data_raises r = false) records)
  /\ concat (map snd (runs records)) = records
  /\ Forall (fun run => run.2 <> []
                        /\ Forall (fun r => r_record_type r = run.1) run.2)
            (runs records)
  /\ adjacent_distinct (map fst (runs records))
  /\ record_sections
       [ Sample.record Sample.alice false MEDICATION "A" None [] [];
         Sample.record Sample.alice false ALLERGY "B" None [] [];
         Sample.record Sample.alice false MEDICATION "C" None [] [] ]
     = Ok [ LF :: lit "## Medication"; lit "- A (Status: ACTIVE)";
            LF :: lit "## Allergy"; lit "- B (Status: ACTIVE)";
            LF :: lit "## Medication"; lit "- C (Status: ACTIVE)" ].
Proof.
  split.
  { rewrite record_sections_lines, lines_from_runs.
    destruct (loop_exception records); [done|].
    destruct (runs records) as [|[t g] gs]; [done|].
    by rewrite decide_False by done. }
  split.
  { rewrite loop_exception_None, Forall_forall. split.
    - intros Hno r Hr. destruct (data_raises r) eqn:E; [|done].
      assert (existsb data_raises records = true); [|congruence].
      apply existsb_exists. by exists r.
    - intros Hall. destruct (existsb data_raises records) eqn:E; [|done].
      apply existsb_exists in E as (r & Hr & Hraise).
      rewrite (Hall r Hr) in Hraise. discriminate Hraise. }
  split; [apply runs_concat|].
  split; [apply runs_uniform|].
  split; [apply runs_adjacent_distinct|].
  reflexivity.
Qed.

Lemma lines_from_contains cur records r line :
  r ∈ records -> line ∈ record_lines r -> line ∈ lines_from cur records.
Proof.
  revert cur. induction records as [|q rest IH]; intros cur Hr Hline.
  - by apply elem_of_nil in Hr.
  - cbn [lines_from]. apply elem_of_app. right. apply elem_of_app.
    apply elem_of_cons in Hr as [->|Hr]; [by left | right; by apply IH].
Qed.

Lemma details_line_emitted records r :
  r ∈ records -> r_description r <> [] ->
  details_line r ∈ lines_from None records.
Proof.
  intros Hr Hd.
  apply (lines_from_contains _ _ r); [done|].
  unfold record_lines. destruct (r_description r) as [|c s] eqn:E; [done|].
  simpl. apply elem_of_cons. right. apply elem_of_cons. by left.
Qed.

(* ================================================================== *)
(** * The context assembler: size cap and early exit *)
(* ================================================================== *)

(** With a record, the context is the cut of the joined sections. *)
Lemma context_returns (d : Database) (user : UserId) sections :
  context_sections d user = Ok sections ->
  records_qs d user <> [] ->
  get_patient_medical_context d user = Ok (take 10000 (join [LF] sections)).
Proof.
  intros Hs Hne. unfold get_patient_medical_context.
  destruct (records_qs d user); [done|]. by rewrite Hs.
Qed.

(** With a record and a joined text within the cap, the context is the
    joined text. *)
Lemma context_untruncated (d : Database) (user : UserId) sections :
  context_sections d user = Ok sections ->
  records_qs d user <> [] ->
  length (join [LF] sections) <= 10000 ->
  get_patient_medical_context d user = Ok (join [LF] sections).
Proof.
  intros Hs Hne Hlen. rewrite (context_returns d user sections) by done.
  by rewrite take_ge.
Qed.

(** The exception of the loop leaves the assembler. *)
Lemma context_raises (d : Database) (user : UserId) e :
  loop_exception (records_qs d user) = Some e ->
  get_patient_medical_context d user = Raise e.
Proof.
  intros E. unfold get_patient_medical_context.
  rewrite context_sections_lines, E.
  destruct (records_qs d user) eqn:Hq; [discriminate E | done].
Qed.

(** The loop raises exactly on an active record of the user that holds a
    truthy value of [data] that is not a dict. *)
Lemma data_raises_in_query_set (d : Database) (user : UserId) :
  existsb data_raises (records_qs d user) = true
  <-> exists r, r ∈ medical_records d /\ r_user r = user
                /\ r_is_deleted r = false /\ data_raises r = true.
Proof.
  rewrite existsb_exists. split.
  - intros (r & Hr & Hraise). exists r.
    apply list_elem_of_In in Hr. unfold records_qs in Hr.
    rewrite order_by_elem_of in Hr. unfold active_records in Hr.
    apply list_elem_of_filter in Hr. tauto.
  - intros (r & Hr & Hu & Hd & Hraise). exists r. split; [|done].
    apply list_elem_of_In. unfold records_qs. rewrite order_by_elem_of.
    unfold active_records. by apply list_elem_of_filter.
Qed.

(** Records whose data are JSON objects never make the loop raise. *)
Lemma object_data_never_raises (d : Database) (user : UserId) :
  (forall r, r ∈ medical_records d -> exists items, r_data r = JObject items) ->
  existsb data_raises (records_qs d user) = false.
Proof.
  intros Hobj. destruct (existsb data_raises (records_qs d user)) eqn:E; [|done].
  apply data_raises_in_query_set in E as (r & Hr & _ & _ & Hraise).
  destruct (Hobj r Hr) as [items Hitems].
  unfold data_raises in Hraise. rewrite Hitems in Hraise. discriminate Hraise.
Qed.

(** C1. Whatever the database and the user, a context that the assembler
    returns has at most 10,000 characters, and when the user has a record
    it is exactly the first 10,000 characters of the text that joins all
    sections with newlines, the cut being the last step. The assembler
    returns whenever no active record of the user holds a truthy value of
    [data] that is not a JSON object, so for all records whose data are
    mappings and all documents; otherwise it raises the [AttributeError] of
    such a record. *)
Theorem context_hard_cap (d : Database) (user : UserId) :
  (forall context, get_patient_medical_context d user = Ok context ->
     length context <= 10000)
  /\ (forall sections, context_sections d user = Ok sections ->
        records_qs d user <> [] ->
        get_patient_medical_context d user
        = Ok (take 10000 (join [LF] sections)))
  /\ (existsb data_raises (records_qs d user) = false ->
      exists context, get_patient_medical_context d user = Ok context)
  /\ (existsb data_raises (records_qs d user) = true ->
      exists r kind,
        r ∈ records_qs d user /\ r_data r = JOther kind true
        /\ get_patient_medical_context d user = Raise (AttributeError kind))
  /\ ((forall r, r ∈ medical_records d ->
         exists items, r_data r = JObject items) ->
      exists context,
        get_patient_medical_context d user = Ok context
        /\ length context <= 10000
        /\ (records_qs d user <> [] ->
            exists sections,
              context_sections d user = Ok sections
              /\ context = take 10000 (join [LF] sections))).
Proof.
  assert (Hlen : forall context,
            get_patient_medical_context d user = Ok context ->
            length context <= 10000).
  { intros context. unfold get_patient_medical_context.
    destruct (records_qs d user) as [|r rs].
    + intros [= <-]. apply Nat.le_0_l.
    + destruct (context_sections d user) as [sections|e]; [|done].
      intros [= <-]. cbv zeta. rewrite length_take. apply Nat.le_min_l. }
  split; [exact Hlen|].
  split; [|split; [|split]]; cycle 3.
  { intros Hobj. apply (object_data_never_raises d user) in Hobj.
    pose proof (context_sections_returns d user Hobj) as Hs.
    destruct (records_qs d user) as [|r rs] eqn:Hq.
    - exists []. split; [unfold get_patient_medical_context; by rewrite Hq|].
      split; [apply Nat.le_0_l | done].
    - assert (Hrun := context_returns d user _ Hs).
      rewrite Hq in Hrun. specialize (Hrun ltac:(done)).
      eexists. split; [exact Hrun|]. split; [by apply Hlen|].
      intros _. eexists. split; [exact Hs|reflexivity]. }
  - intros sections. apply context_returns.
  - intros Hno. unfold get_patient_medical_context.
    rewrite (context_sections_returns d user Hno).
    destruct (records_qs d user); eexists; reflexivity.
  - intros Hyes.
    destruct (loop_exception (records_qs d user)) as [e|] eqn:E.
    + destruct (loop_exception_Some _ _ E) as (r & kind & Hr & Hk & ->).
      exists r, kind. split; [done|]. split; [done|]. by apply context_raises.
    + apply loop_exception_None in E. congruence.
Qed.

Lemma context_hard_cap_witness :
  existsb data_raises (records_qs Sample.long_value Sample.alice) = false
  /\ records_qs Sample.long_value Sample.alice <> []
  /\ exists sections context,
       context_sections Sample.long_value Sample.alice = Ok sections
       /\ Nat.ltb 10000 (length (join [LF] sections)) = true
       /\ get_patient_medical_context Sample.long_value Sample.alice
          = Ok context
       /\ context = take 10000 (join [LF] sections)
       /\ length context = 10000
       /\ existsb data_raises (records_qs Sample.array_data Sample.alice) = true
       /\ Sample.array_record ∈ records_qs Sample.array_data Sample.alice
       /\ get_patient_medical_context Sample.array_data Sample.alice
          = Raise (AttributeError JArray).
Proof.
  destruct (context_hard_cap Sample.array_data Sample.alice)
    as (_ & _ & _ & Hraise & _).
  destruct (context_hard_cap Sample.long_value Sample.alice)
    as (Hcap & Hcut & _ & _).
  assert (Hne : records_qs Sample.long_value Sample.alice <> [])
    by (by vm_compute).
  assert (Hs : context_sections Sample.long_value Sample.alice
               = Ok (lines_from None (records_qs Sample.long_value Sample.alice)
                     ++ document_sections
                          (documents_qs Sample.long_value Sample.alice)))
    by (by rewrite context_sections_lines).
  assert (Hlong : Nat.ltb 10000
                    (length (join [LF]
                       (lines_from None
                          (records_qs Sample.long_value Sample.alice)
                        ++ document_sections
                             (documents_qs Sample.long_value Sample.alice))))
                  = true)
    by (vm_cast_no_check (@eq_refl bool true)).
  split; [reflexivity|]. split; [exact Hne|].
  eexists _, _. split; [exact Hs|]. split; [exact Hlong|].
  split; [exact (Hcut _ Hs Hne)|]. split; [reflexivity|].
  split; [apply Nat.ltb_lt in Hlong; rewrite length_take; lia|].
  split; [reflexivity|].
  destruct (Hraise eq_refl) as (r & kind & Hr & Hk & Hrun).
  assert (Hrow : r = Sample.array_record).
  { vm_compute in Hr. apply elem_of_cons in Hr as [->|Hr]; [discriminate Hk|].
    apply elem_of_cons in Hr as [->|Hr]; [reflexivity|].
    by apply elem_of_nil in Hr. }
  subst r. split; [exact Hr|].
  injection Hk as <-. exact Hrun.
Defined.

(** C3. When the user has no active record the context is the empty
    string, whatever documents the database holds. *)
Theorem context_empty_without_records (d : Database) (user : UserId) :
  active_records d user = [] ->
  get_patient_medical_context d user = Ok [].
Proof.
  intros E. unfold get_patient_medical_context, records_qs.
  rewrite E. reflexivity.
Qed.

Lemma context_empty_without_records_witness :
  active_records Sample.no_active_record Sample.alice = []
  /\ documents_qs Sample.no_active_record Sample.alice <> []
  /\ get_patient_medical_context Sample.no_active_record Sample.alice = Ok [].
Proof.
  split; [reflexivity|]. split; [by vm_compute|].
  apply (context_empty_without_records Sample.no_active_record Sample.alice).
  reflexivity.
Defined.

(* ================================================================== *)
(** * The document section *)
(* ================================================================== *)

Lemma fold_document_lines documents sections :
  fold_left (fun acc d => acc ++ document_lines d) documents sections
  = sections ++ concat (map document_lines documents).
Proof.
  revert sections. induction documents as [|d ds IH]; intros sections.
  - simpl. by rewrite app_nil_r.
  - cbn [fold_left map concat]. rewrite IH. by rewrite <- app_assoc.
Qed.

Lemma document_sections_lines documents :
  document_sections documents
  = match documents with
    | [] => []
    | _ :: _ => (LF :: lit "## Uploaded Medical Documents")
                :: concat (map document_lines documents)
    end.
Proof.
  destruct documents as [|d ds]; [done|].
  unfold document_sections. by rewrite fold_document_lines.
Qed.

Lemma document_text_emitted documents doc :
  doc ∈ documents ->
  take 2000 (d_extracted_text doc) ∈ document_sections documents.
Proof.
  intros Hin. rewrite document_sections_lines.
  destruct documents as [|d ds]; [by apply elem_of_nil in Hin|].
  apply elem_of_cons. right. apply list_elem_of_In, in_concat.
  exists (document_lines doc). split.
  - apply in_map. by apply list_elem_of_In.
  - apply list_elem_of_In. unfold document_lines.
    apply elem_of_cons. right. apply elem_of_cons. by left.
Qed.

Lemma document_sections_length documents :
  documents <> [] ->
  length (document_sections documents) = 1 + 2 * length documents.
Proof.
  intros Hne. rewrite document_sections_lines.
  assert (Hlen : forall l, length (concat (map document_lines l)) = 2 * length l).
  { induction l as [|x l IH]; [reflexivity|]. cbn [map concat length].
    rewrite length_app, IH. simpl. lia. }
  destruct documents as [|d ds]; [done|].
  change (length (?x :: ?l)) with (S (length l)). by rewrite Hlen.
Qed.

Lemma StronglySorted_weaken {A} (R R' : relation A) l :
  (forall a b, R a b -> R' a b) -> StronglySorted R l -> StronglySorted R' l.
Proof.
  intros HR. induction 1 as [|a l Hs IH Hall]; constructor; [done|].
  revert Hall. apply Forall_impl. intros b. apply HR.
Qed.

Lemma documents_with_text_sorted (d : Database) (user : UserId) :
  StronglySorted (fun a b => (d_created_at b <= d_created_at a)%Z)
                 (documents_with_text d user).
Proof.
  eapply StronglySorted_weaken; [|apply order_by_StronglySorted].
  intros a b. unfold key_le, document_order_key, lexico, Z_lexico. lia.
Qed.

Lemma documents_with_text_elem_of (d : Database) (user : UserId) doc :
  doc ∈ documents_with_text d user
  <-> doc ∈ active_documents d user /\ d_extracted_text doc <> [].
Proof.
  unfold documents_with_text. rewrite order_by_elem_of, list_elem_of_filter.
  tauto.
Qed.

Lemma active_documents_elem_of (d : Database) (user : UserId) doc :
  doc ∈ active_documents d user
  <-> doc ∈ medical_documents d /\ d_user doc = user /\ d_is_deleted doc = false.
Proof. unfold active_documents. rewrite list_elem_of_filter. tauto. Qed.

Lemma documents_qs_elem_of (d : Database) (user : UserId) doc :
  doc ∈ documents_qs d user -> doc ∈ documents_with_text d user.
Proof.
  unfold documents_qs. intros Hin.
  rewrite <- (take_drop 5 (documents_with_text d user)).
  apply elem_of_app. by left.
Qed.

(** C4. The documents of the section are the first five of the user's
    active documents with a non-empty extracted text, most recent first: the
    ranking holds exactly the rows of the table of documents that belong to
    the user, are not soft-deleted and have a non-empty extracted text, latest
    created first; the section takes the first five of the ranking, every
    document left out is no more recent than any document taken, and the
    section is its heading followed by the two lines of each document taken,
    whose texts occur in the returned context when the user has a record and
    the joined text fits the overall cap. With seven such documents the five
    most recent make up the section, eleven lines in all, and the two oldest
    contribute nothing. *)
Theorem document_cap (d : Database) (user : UserId) :
  let ranked := documents_with_text d user in
  let included := documents_qs d user in
  ranked ≡ₚ filter (fun doc => d_extracted_text doc <> []
                               /\ d_user doc = user /\ d_is_deleted doc = false)
                   (medical_documents d)
  /\ (forall doc, doc ∈ ranked
       <-> doc ∈ medical_documents d /\ d_user doc = user
           /\ d_is_deleted doc = false /\ d_extracted_text doc <> [])
  /\ (forall doc, doc ∈ included ->
        doc ∈ medical_documents d /\ d_user doc = user
        /\ d_is_deleted doc = false /\ d_extracted_text doc <> [])
  /\ StronglySorted (fun a b => (d_created_at b <= d_created_at a)%Z) ranked
  /\ included = take 5 ranked
  /\ length included = min 5 (length ranked)
  /\ (forall a b, a ∈ included -> b ∈ drop 5 ranked ->
        (d_created_at b <= d_created_at a)%Z)
  /\ document_sections included
     = match included with
       | [] => []
       | _ :: _ => (LF :: lit "## Uploaded Medical Documents")
                   :: concat (map document_lines included)
       end
  /\ (forall sections, context_sections d user = Ok sections ->
        records_qs d user <> [] ->
        length (join [LF] sections) <= 10000 ->
        forall doc, doc ∈ included ->
          exists context,
            get_patient_medical_context d user = Ok context
            /\ occurs_in (take 2000 (d_extracted_text doc)) context)
  /\ (length ranked = 7 ->
      exists d1 d2 d3 d4 d5 d6 d7,
        ranked = [d1; d2; d3; d4; d5; d6; d7]
        /\ included = [d1; d2; d3; d4; d5]
        /\ document_sections included
           = (LF :: lit "## Uploaded Medical Documents")
             :: concat (map document_lines [d1; d2; d3; d4; d5])
        /\ length (document_sections included) = 11).
Proof.
  intros ranked included.
  assert (Hmem : forall doc, doc ∈ ranked
            <-> doc ∈ medical_documents d /\ d_user doc = user
                /\ d_is_deleted doc = false /\ d_extracted_text doc <> []).
  { intros doc. unfold ranked.
    rewrite documents_with_text_elem_of, active_documents_elem_of. tauto. }
  split.
  { unfold ranked, documents_with_text. rewrite order_by_Permutation.
    unfold active_documents. by rewrite list_filter_filter. }
  split; [exact Hmem|].
  split.
  { intros doc Hdoc. apply Hmem. by apply documents_qs_elem_of. }
  split; [apply documents_with_text_sorted|].
  split; [reflexivity|].
  split; [apply length_take|].
  split.
  { intros a b Ha Hb.
    pose proof (documents_with_text_sorted d user) as Hs. fold ranked in Hs.
    rewrite <- (take_drop 5 ranked) in Hs.
    exact (StronglySorted_app_1_elem_of _ _ _ _ _ Hs Ha Hb). }
  split; [apply document_sections_lines|].
  split.
  { intros sections Hs Hne Hfit doc Hdoc.
    exists (join [LF] sections). split; [by apply context_untruncated|].
    apply context_sections_Ok in Hs as [_ ->].
    apply join_contains, elem_of_app. right. by apply document_text_emitted. }
  intros Hlen. subst included. unfold documents_qs. fold ranked.
  destruct ranked as [|d1 [|d2 [|d3 [|d4 [|d5 [|d6 [|d7 [|d8 l]]]]]]]];
    try discriminate Hlen.
  exists d1, d2, d3, d4, d5, d6, d7. repeat split.
Qed.

Lemma document_cap_witness :
  length (medical_documents Sample.crowded) = 10
  /\ length (documents_with_text Sample.crowded Sample.alice) = 7
  /\ get_patient_medical_context Sample.crowded Sample.alice
     = Ok (join [LF]
             [ LF :: lit "## Condition / Diagnosis";
               lit "- Asthma (Status: ACTIVE) " ++ [EM_DASH] ++ lit " 2021-03-09";
               LF :: lit "## Uploaded Medical Documents";
               LF :: lit "### d7.pdf (Lab Report)"; lit "seven";
               LF :: lit "### d6.pdf (Lab Report)"; lit "six";
               LF :: lit "### d5.pdf (Lab Report)"; lit "five";
               LF :: lit "### d4.pdf (Lab Report)"; lit "four";
               LF :: lit "### d3.pdf (Lab Report)"; lit "three" ])
  /\ exists d1 d2 d3 d4 d5 d6 d7,
       documents_with_text Sample.crowded Sample.alice
       = [d1; d2; d3; d4; d5; d6; d7]
       /\ documents_qs Sample.crowded Sample.alice = [d1; d2; d3; d4; d5]
       /\ document_sections (documents_qs Sample.crowded Sample.alice)
          = (LF :: lit "## Uploaded Medical Documents")
            :: concat (map document_lines [d1; d2; d3; d4; d5])
       /\ length (document_sections
                    (documents_qs Sample.crowded Sample.alice)) = 11.
Proof.
  split; [reflexivity|]. split; [reflexivity|].
  split; [vm_compute; reflexivity|].
  apply (document_cap Sample.crowded Sample.alice). reflexivity.
Defined.

(** C7. When the assembler gets to join its sections, a record of the
    query set whose description has more than 500 characters contributes the
    line made of two spaces, "Details: " and exactly the first 500
    characters of the description; a document of the section whose extracted
    text has more than 2,000 characters contributes exactly its first 2,000
    characters. Both lines are among the sections that are joined, and occur
    in the returned context whenever the joined text fits the overall cap. *)
Theorem field_truncation (d : Database) (user : UserId)
    (sections : list str) :
  context_sections d user = Ok sections ->
  (forall r, r ∈ records_qs d user -> 500 < length (r_description r) ->
     let line := lit "  Details: " ++ take 500 (r_description r) in
     line ∈ sections
     /\ length (take 500 (r_description r)) = 500
     /\ length line = 511
     /\ (length (join [LF] sections) <= 10000 ->
         exists context,
           get_patient_medical_context d user = Ok context
           /\ occurs_in line context))
  /\ (forall doc, doc ∈ documents_qs d user ->
        2000 < length (d_extracted_text doc) ->
        let text := take 2000 (d_extracted_text doc) in
        text ∈ sections
        /\ length text = 2000
        /\ (records_qs d user <> [] ->
            length (join [LF] sections) <= 10000 ->
            exists context,
              get_patient_medical_context d user = Ok context
              /\ occurs_in text context)).
Proof.
  intros Hs. pose proof (context_untruncated d user sections Hs) as Hfit.
  destruct (context_sections_Ok d user sections Hs) as [_ Hlines].
  split.
  - intros r Hr Hlong line.
    assert (Hin : line ∈ sections).
    { rewrite Hlines. apply elem_of_app. left.
      apply (details_line_emitted _ r Hr).
      intros E. rewrite E in Hlong. simpl in Hlong. lia. }
    split; [done|]. split; [rewrite length_take; lia|].
    split.
    { unfold line. rewrite length_app, length_take.
      change (length (lit "  Details: ")) with 11. lia. }
    intros Hlen. exists (join [LF] sections). split.
    + apply Hfit; [|done]. intros E. rewrite E in Hr.
      by apply elem_of_nil in Hr.
    + by apply join_contains.
  - intros doc Hdoc Hlong text.
    assert (Hin : text ∈ sections).
    { rewrite Hlines. apply elem_of_app. right.
      by apply document_text_emitted. }
    split; [done|]. split; [unfold text; rewrite length_take; lia|].
    intros Hne Hlen. exists (join [LF] sections).
    split; [by apply Hfit | by apply join_contains].
Qed.

Lemma field_truncation_witness :
  exists sections context,
    context_sections Sample.long_fields Sample.alice = Ok sections
    /\ get_patient_medical_context Sample.long_fields Sample.alice = Ok context
    /\ (Sample.long_record ∈ records_qs Sample.long_fields Sample.alice
        /\ 500 < length (r_description Sample.long_record)
        /\ lit "  Details: " ++ repeat 97%N 500 ∈ sections
        /\ occurs_in (lit "  Details: " ++ repeat 97%N 500) context)
    /\ (Sample.long_document ∈ documents_qs Sample.long_fields Sample.alice
        /\ 2000 < length (d_extracted_text Sample.long_document)
        /\ repeat 98%N 2000 ∈ sections
        /\ occurs_in (repeat 98%N 2000) context).
Proof.
  pose (d := Sample.long_fields).
  pose (sections := lines_from None (records_qs d Sample.alice)
                    ++ document_sections (documents_qs d Sample.alice)).
  assert (Hs : context_sections d Sample.alice = Ok sections)
    by (by rewrite context_sections_lines).
  assert (Hr : Sample.long_record ∈ records_qs d Sample.alice)
    by (vm_compute; constructor).
  assert (Hd : Sample.long_document ∈ documents_qs d Sample.alice)
    by (vm_compute; constructor).
  assert (Hlr : 500 < length (r_description Sample.long_record))
    by (vm_compute; lia).
  assert (Hld : 2000 < length (d_extracted_text Sample.long_document))
    by (vm_compute; lia).
  assert (Hfit : length (join [LF] sections) <= 10000)
    by (vm_compute; lia).
  assert (Hne : records_qs d Sample.alice <> []) by (by vm_compute).
  destruct (field_truncation d Sample.alice sections Hs) as [Hrec Hdoc].
  destruct (Hrec _ Hr Hlr) as (H1 & _ & _ & H2).
  destruct (Hdoc _ Hd Hld) as (H3 & _ & H4).
  destruct (H2 Hfit) as (context & Hrun & Hocc).
  destruct (H4 Hne Hfit) as (context' & Hrun' & Hocc').
  assert (context' = context) as -> by congruence.
  exists sections, context. split; [exact Hs|]. split; [exact Hrun|].
  split.
  - split; [done|]. split; [done|]. split; [exact H1 | exact Hocc].
  - split; [done|]. split; [done|]. split; [exact H3 | exact Hocc'].
Defined.

(** C10. An active document of the user is left out of the ranking of
    documents with text only when its extracted text is exactly the empty
    string. A text of white space alone, which [strip] would empty, is not
    empty: its document is ranked, takes one of the at most five places of
    the section when it is among the first five, and then has its text, cut
    at 2,000 characters, among the sections that are joined and, when the
    user has a record and the joined text fits the overall cap, in the
    context returned. *)
Theorem whitespace_text_is_text (d : Database) (user : UserId)
    (doc : MedicalDocument) :
  doc ∈ active_documents d user ->
  (doc ∉ documents_with_text d user <-> d_extracted_text doc = [])
  /\ (d_extracted_text doc <> [] -> strip (d_extracted_text doc) = [] ->
      doc ∈ documents_with_text d user)
  /\ length (documents_qs d user) <= 5
  /\ (doc ∈ documents_qs d user ->
      forall sections, context_sections d user = Ok sections ->
        take 2000 (d_extracted_text doc) ∈ sections
        /\ (records_qs d user <> [] ->
            length (join [LF] sections) <= 10000 ->
            exists context,
              get_patient_medical_context d user = Ok context
              /\ occurs_in (take 2000 (d_extracted_text doc)) context)).
Proof.
  intros Hact. split; [|split; [|split]].
  - rewrite documents_with_text_elem_of. split.
    + intros Hnot. destruct (d_extracted_text doc) eqn:E; [done|].
      exfalso. apply Hnot. split; [done|]. congruence.
    + intros E [_ Hne]. done.
  - intros Hne _. by apply documents_with_text_elem_of.
  - unfold documents_qs. rewrite length_take. lia.
  - intros Hin sections Hs.
    assert (Hmem : take 2000 (d_extracted_text doc) ∈ sections).
    { apply context_sections_Ok in Hs as [_ ->].
      apply elem_of_app. right. by apply document_text_emitted. }
    split; [done|]. intros Hne Hfit. exists (join [LF] sections).
    split; [by apply context_untruncated | by apply join_contains].
Qed.

Lemma whitespace_text_is_text_witness :
  Sample.blank_document ∈ active_documents Sample.blank_documents Sample.alice
  /\ strip (d_extracted_text Sample.blank_document) = []
  /\ Sample.blank_document
       ∈ documents_with_text Sample.blank_documents Sample.alice
  /\ Sample.blank_document ∈ documents_qs Sample.blank_documents Sample.alice
  /\ get_patient_medical_context Sample.blank_documents Sample.alice
     = Ok (join [LF]
             [ LF :: lit "## Condition / Diagnosis";
               lit "- Asthma (Status: ACTIVE) " ++ [EM_DASH] ++ lit " 2021-03-09";
               LF :: lit "## Uploaded Medical Documents";
               LF :: lit "### b5.pdf (Lab Report)"; [160%N];
               LF :: lit "### b4.pdf (Lab Report)"; [32%N; 32%N];
               LF :: lit "### b3.pdf (Lab Report)"; [9%N];
               LF :: lit "### b2.pdf (Lab Report)"; [10%N; 10%N];
               LF :: lit "### b1.pdf (Lab Report)"; [32%N] ])
  /\ exists sections context,
       context_sections Sample.blank_documents Sample.alice = Ok sections
       /\ [10%N; 10%N] ∈ sections
       /\ get_patient_medical_context Sample.blank_documents Sample.alice
          = Ok context
       /\ occurs_in [10%N; 10%N] context.
Proof.
  pose (d := Sample.blank_documents).
  pose (sections := lines_from None (records_qs d Sample.alice)
                    ++ document_sections (documents_qs d Sample.alice)).
  assert (Hs : context_sections d Sample.alice = Ok sections)
    by (by rewrite context_sections_lines).
  assert (Hact : Sample.blank_document ∈ active_documents d Sample.alice).
  { vm_compute. do 2 apply list_elem_of_further. constructor. }
  assert (Hqs : Sample.blank_document ∈ documents_qs d Sample.alice).
  { vm_compute. do 3 apply list_elem_of_further. constructor. }
  destruct (whitespace_text_is_text d Sample.alice _ Hact)
    as (_ & Hranked & _ & Hemit).
  destruct (Hemit Hqs sections Hs) as [Hmem Hout].
  destruct Hout as (context & Hrun & Hocc);
    [by vm_compute | vm_compute; lia |].
  split; [done|]. split; [reflexivity|].
  split; [apply Hranked; [by vm_compute | reflexivity]|].
  split; [done|]. split; [vm_compute; reflexivity|].
  exists sections, context. by repeat split.
Defined.

(* ================================================================== *)
(** * The order of the records *)
(* ================================================================== *)

Lemma RecordType_value_inj a b :
  RecordType_value a = RecordType_value b -> a = b.
Proof. destruct a, b; intros E; try reflexivity; by vm_compute in E. Qed.

Lemma date_desc_key_order nl a b :
  lexico (date_desc_key nl a) (date_desc_key nl b)
  \/ date_desc_key nl a = date_desc_key nl b ->
  date_desc_order nl a b.
Proof.
  unfold date_desc_order, date_desc_key, date_lt.
  destruct a as [x|], b as [y|], nl; try done; try intros H Hc; try intros H;
    lexico_arith.
Qed.

Lemma record_order_key_le nl a b :
  key_le (record_order_key nl a) (record_order_key nl b) -> query_order nl a b.
Proof.
  unfold key_le, record_order_key, query_order.
  intros [[Hlt|[Heq Hd]]|Heq]; simpl in *.
  - by left.
  - right. split; [by apply RecordType_value_inj|].
    apply date_desc_key_order. by left.
  - injection Heq as Hv Hd. right. split; [by apply RecordType_value_inj|].
    apply date_desc_key_order. by right.
Qed.

(** C2, as the code has it. The records fed to the assembler are the
    user's active records rearranged so that the stored category values
    ascend as strings, which puts the categories in the order ALLERGY,
    CONDITION, FAMILY_HISTORY, IMMUNIZATION, LAB_RESULT, MEDICATION, OTHER,
    PROCEDURE, VITAL, and within one category the dates descend; a record
    without a date comes after the dated ones of its category where the
    database sorts NULL smallest and before them where it sorts NULL
    largest. *)
Theorem records_query_order (d : Database) (user : UserId) :
  records_qs d user ≡ₚ active_records d user
  /\ StronglySorted (query_order (nulls_order_largest d)) (records_qs d user)
  /\ order_by RecordType_value RecordType_members
     = [ALLERGY; CONDITION; FAMILY_HISTORY; IMMUNIZATION; LAB_RESULT;
        MEDICATION; OTHER; PROCEDURE; VITAL].
Proof.
  split; [apply order_by_Permutation|]. split; [|reflexivity].
  eapply StronglySorted_weaken; [|apply order_by_StronglySorted].
  intros a b. apply record_order_key_le.
Qed.

(** C2 as worded fails on both of its clauses. A CONDITION record and an
    ALLERGY record come out with the allergy first, against the order of the
    enumeration; and of two allergies on a database that sorts NULL largest
    the one without a date comes out before the dated one. *)
Lemma enumeration_order_refuted :
  (map r_record_type (records_qs Sample.two_categories Sample.alice)
   = [ALLERGY; CONDITION]
   /\ ~ StronglySorted enumeration_order
         (records_qs Sample.two_categories Sample.alice))
  /\ (map r_record_type (records_qs Sample.undated_first Sample.alice)
      = [ALLERGY; ALLERGY]
      /\ map r_title (records_qs Sample.undated_first Sample.alice)
         = [lit "Latex"; lit "Pollen"]
      /\ map r_date_recorded (records_qs Sample.undated_first Sample.alice)
         = [None; Some (Date 2020 1 2)]
      /\ ~ StronglySorted enumeration_order
            (records_qs Sample.undated_first Sample.alice)).
Proof.
  split.
  - split; [reflexivity|].
    assert (E : records_qs Sample.two_categories Sample.alice
                = [ Sample.record Sample.alice false ALLERGY "Pollen" None [] [];
                    Sample.record Sample.alice false CONDITION "Asthma" None
                      [] [] ])
      by reflexivity.
    rewrite E. intros Hs. apply StronglySorted_inv in Hs as [_ Hall].
    apply Forall_cons_1 in Hall as [[Hlt|[Heq _]] _].
    + simpl in Hlt. lia.
    + discriminate Heq.
  - split; [reflexivity|]. split; [reflexivity|]. split; [reflexivity|].
    assert (E : records_qs Sample.undated_first Sample.alice
                = [ Sample.record Sample.alice false ALLERGY "Latex" None [] [];
                    Sample.record Sample.alice false ALLERGY "Pollen"
                      (Some (Date 2020 1 2)) [] [] ])
      by reflexivity.
    rewrite E. intros Hs. apply StronglySorted_inv in Hs as [_ Hall].
    apply Forall_cons_1 in Hall as [[Hlt|[_ Hdate]] _].
    + simpl in Hlt. lia.
    + discriminate Hdate.
Qed.

(* ================================================================== *)
(** * The text extractor *)
(* ================================================================== *)

Lemma truthy_nonempty (s : str) : truthy s = true <-> s <> [].
Proof. destruct s; simpl; split; congruence. Qed.

Lemma lstrip_split s :
  exists pre, s = pre ++ lstrip s /\ Forall (fun c => isspace c = true) pre.
Proof.
  induction s as [|c s (pre & E & Hpre)]; [by exists []|].
  simpl. destruct (isspace c) eqn:Hc.
  - exists (c :: pre). split; [simpl; congruence | by constructor].
  - by exists [].
Qed.

Lemma lstrip_head s c : head (lstrip s) = Some c -> isspace c = false.
Proof.
  induction s as [|x s IH]; [done|]. simpl.
  destruct (isspace x) eqn:Hx; [done|]. simpl. congruence.
Qed.

Lemma rstrip_split s :
  exists post, s = rstrip s ++ post /\ Forall (fun c => isspace c = true) post.
Proof.
  destruct (lstrip_split (reverse s)) as (pre & E & Hpre).
  exists (reverse pre). split; [|by apply Forall_reverse].
  unfold rstrip. rewrite <- reverse_app, <- E. by rewrite reverse_involutive.
Qed.

Lemma rstrip_last s c : list.last (rstrip s) = Some c -> isspace c = false.
Proof. unfold rstrip. rewrite last_reverse. apply lstrip_head. Qed.

Lemma strip_stripped s : stripped (strip s).
Proof.
  unfold stripped, strip. split; intros c Hc; [|by apply rstrip_last in Hc].
  destruct (rstrip_split (lstrip s)) as (post & E & _).
  apply (lstrip_head s). rewrite E, head_app. by rewrite Hc.
Qed.

Section ServiceFacts.
Context `{rt : Runtime}.

(** The loop keeps the pages whose text is not empty and strips them. *)
Lemma collect_text_page_texts pages texts text_parts :
  page_texts pages = Ok texts ->
  collect_text pages text_parts
  = Ok (text_parts ++ map strip (filter (fun t => t <> []) texts)).
Proof.
  revert texts text_parts.
  induction pages as [|p pages IH]; intros texts text_parts E; simpl in *.
  - injection E as <-. by rewrite app_nil_r.
  - destruct (extract_text p) as [t|e]; [|done].
    destruct (page_texts pages) as [ts|e]; [|done].
    injection E as <-. rewrite (IH ts) by done.
    destruct t as [|c t]; cbn [truthy].
    + rewrite filter_cons_False by (intros Hc; by apply Hc). done.
    + rewrite filter_cons_True by done. cbn [map].
      by rewrite <- app_assoc.
Qed.

(** A run of the extractor, by the outcome of parsing. *)
Lemma extract_pdf_text_run file w :
  _extract_pdf_text file w
  = match parsed_parts file with
    | Ok text_parts =>
        (Ok (take 50000 (join [LF; LF] text_parts)), after_pdf_read w)
    | Raise e => (Ok [], after_failed_read w e)
    end.
Proof.
  unfold _extract_pdf_text, try_except, extract_pdf_text_body, parsed_parts,
    bind, lift, count_pdf_read, ret, logger_warning.
  destruct (PdfReader (f_payload file)) as [pages|e]; [|done].
  by destruct (collect_text pages []).
Qed.

(** An upload returns and stores its document, whatever the extractor
    met. *)
Lemma upload_document_stores file pk now user document_type record
    ip_address user_agent w :
  exists doc w',
    upload_document pk now user file document_type record ip_address
      user_agent w = (Ok doc, w')
    /\ medical_documents (db w') = medical_documents (db w) ++ [doc]
    /\ d_original_filename doc = f_name file
    /\ d_file_size doc = f_size file.
Proof.
  unfold upload_document, atomic, bind.
  destruct (endswith (lower (f_name file)) (lit ".pdf")).
  - rewrite extract_pdf_text_run.
    destruct (parsed_parts file); eexists _, _; repeat split; reflexivity.
  - eexists _, _; repeat split; reflexivity.
Qed.

(** C5. The extractor returns for every file and leaves the database as
    it was; an upload returns too and stores its document. When parsing
    the payload raises, the extractor returns the empty string after
    logging one warning, and the upload of such a file under a name that
    ends in .pdf stores the document with an empty extracted text. *)
Theorem extraction_failure_isolated (file : UploadedFile) (pk : UUID)
    (now : Z) (user : UserId) (document_type : DocumentType)
    (record : option MedicalRecord) (ip_address : option str)
    (user_agent : str) (w : World) :
  (exists text w', _extract_pdf_text file w = (Ok text, w') /\ db w' = db w)
  /\ (exists doc w',
        upload_document pk now user file document_type record ip_address
          user_agent w = (Ok doc, w')
        /\ medical_documents (db w') = medical_documents (db w) ++ [doc]
        /\ d_original_filename doc = f_name file)
  /\ (forall e, parsed_parts file = Raise e ->
        _extract_pdf_text file w = (Ok [], after_failed_read w e)
        /\ (endswith (lower (f_name file)) (lit ".pdf") = true ->
            exists doc w',
              upload_document pk now user file document_type record
                ip_address user_agent w = (Ok doc, w')
              /\ d_extracted_text doc = []
              /\ medical_documents (db w') = medical_documents (db w) ++ [doc]
              /\ warnings w'
                 = warnings w ++ [(lit "PDF extraction failed: %s", e)])).
Proof.
  split; [|split].
  - rewrite extract_pdf_text_run.
    destruct (parsed_parts file); eexists _, _; split; reflexivity.
  - destruct (upload_document_stores file pk now user document_type record
                ip_address user_agent w) as (doc & w' & Hrun & Hdocs & Hn & _).
    by exists doc, w'.
  - intros e He. rewrite extract_pdf_text_run, He. split; [done|].
    intros Hpdf. unfold upload_document, atomic, bind. rewrite Hpdf.
    rewrite extract_pdf_text_run, He.
    eexists _, _; repeat split; reflexivity.
Qed.

(** C6, as the code has it. When the payload parses into pages and every
    page gives its text, the extractor drops the pages whose text is
    empty, strips the text of each remaining page, joins the stripped
    texts with a blank line, a page of white space alone being joined as
    an empty text, and returns the first 50,000 characters without
    logging: every joined part is free of white space at both ends, the
    result is exactly 50,000 characters long whenever the joined text is
    longer than that, and it is what stripping before skipping would give
    when no page is white space alone. *)
Theorem extraction_algorithm (file : UploadedFile) (w : World)
    (pages : list page) (texts : list str) :
  PdfReader (f_payload file) = Ok pages ->
  page_texts pages = Ok texts ->
  let text_parts := map strip (filter (fun t => t <> []) texts) in
  let joined := join [LF; LF] text_parts in
  _extract_pdf_text file w = (Ok (take 50000 joined), after_pdf_read w)
  /\ Forall stripped text_parts
  /\ length (take 50000 joined) <= 50000
  /\ (50000 < length joined -> length (take 50000 joined) = 50000)
  /\ (Forall (fun t => t = [] \/ strip t <> []) texts ->
      take 50000 joined = extract_as_specified texts).
Proof.
  intros Hread Htexts text_parts joined.
  split.
  { rewrite extract_pdf_text_run. unfold parsed_parts. rewrite Hread.
    by rewrite (collect_text_page_texts _ texts). }
  split.
  { apply Forall_forall. intros t Ht.
    apply in_map_iff in Ht as (t' & <- & _). apply strip_stripped. }
  split; [rewrite length_take; lia|].
  split; [intros Hlong; rewrite length_take; lia|].
  intros Hall. unfold extract_as_specified, joined, text_parts.
  do 2 f_equal. clear -Hall.
  induction texts as [|t texts IH]; [done|].
  apply Forall_cons_1 in Hall as [Ht Hall]. specialize (IH Hall).
  destruct Ht as [->|Ht].
  - rewrite filter_cons_False by (intros Hc; by apply Hc).
    cbn [map]. change (strip []) with (@nil N).
    rewrite filter_cons_False by (intros Hc; by apply Hc). done.
  - assert (t <> []) by (intros ->; by apply Ht).
    rewrite filter_cons_True by done. cbn [map].
    rewrite filter_cons_True by done. by rewrite IH.
Qed.

(** C9. With a file of 20,971,521 bytes or more the view answers 400 and
    leaves the world as it was: no row, no audit entry, no run of the
    extractor, no warning. With a named file of at most 20,971,520 bytes
    and form fields that validate, it answers 201 and the document is
    stored with the size and the name of the file. *)
Theorem upload_size_limit (request : Request) (file : UploadedFile)
    (pk : UUID) (now : Z) (w : World) :
  req_file request = Some file ->
  ((20971521 <= f_size file)%N ->
     exists error,
       post pk now request w
       = (Ok {| status_code := 400; body := ErrorBody error |}, w)
       /\ (f_name file <> [] -> error = lit "File must be smaller than 20MB."))
  /\ ((f_size file <= 20971520)%N -> f_name file <> [] ->
      forall data, UploadDocumentSerializer_validated_data request = Ok data ->
      exists doc w',
        post pk now request w
        = (Ok {| status_code := 201; body := DocumentBody doc |}, w')
        /\ medical_documents (db w') = medical_documents (db w) ++ [doc]
        /\ d_file_size doc = f_size file
        /\ d_original_filename doc = f_name file).
Proof.
  intros Hfile. unfold post. rewrite Hfile. unfold file_truthy. split.
  - intros Hbig. destruct (f_name file) as [|c name] eqn:Hname; simpl.
    + eexists. split; [reflexivity|]. done.
    + assert ((20 * 1024 * 1024 <? f_size file)%N = true) as ->
        by (apply N.ltb_lt; lia).
      eexists. split; [reflexivity|]. done.
  - intros Hsmall Hname data Hdata.
    assert (truthy (f_name file) = true) as -> by (by apply truthy_nonempty).
    assert ((20 * 1024 * 1024 <? f_size file)%N = false) as ->
      by (apply N.ltb_ge; lia).
    cbn [negb]. unfold bind, lift, get_db. rewrite Hdata.
    match goal with
    | |- context [upload_document ?a ?b ?c ?d ?e ?f ?g ?h w] =>
        destruct (upload_document_stores d a b c e f g h w)
          as (doc & w' & Hrun & Hdocs & Hn & Hsz)
    end.
    rewrite Hrun. exists doc, w'. by repeat split.
Qed.

End ServiceFacts.

Lemma extraction_failure_isolated_witness :
  @parsed_parts Sample.reader Sample.corrupt_pdf
  = Raise (Exception (lit "EOF marker not found"))
  /\ endswith (ascii_lower (f_name Sample.corrupt_pdf)) (lit ".pdf") = true
  /\ @_extract_pdf_text Sample.reader Sample.corrupt_pdf Sample.empty_world
     = (Ok [], after_failed_read Sample.empty_world
                 (Exception (lit "EOF marker not found")))
  /\ exists doc w',
       @upload_document Sample.reader 9%N 100%Z Sample.alice Sample.corrupt_pdf
         DOC_OTHER None None [] Sample.empty_world = (Ok doc, w')
       /\ d_extracted_text doc = []
       /\ medical_documents (db w')
          = medical_documents (db Sample.empty_world) ++ [doc]
       /\ warnings w'
          = warnings Sample.empty_world
            ++ [(lit "PDF extraction failed: %s",
                 Exception (lit "EOF marker not found"))].
Proof.
  destruct (@extraction_failure_isolated Sample.reader Sample.corrupt_pdf 9%N
              100%Z Sample.alice DOC_OTHER None None [] Sample.empty_world)
    as (_ & _ & Hfail).
  destruct (Hfail (Exception (lit "EOF marker not found")) eq_refl)
    as [Hrun Hupload].
  split; [reflexivity|]. split; [reflexivity|]. split; [exact Hrun|].
  apply Hupload. reflexivity.
Defined.

Lemma extraction_algorithm_witness :
  @PdfReader Sample.reader (f_payload Sample.big_pdf)
  = Ok (repeat Byte.x61 20000)
  /\ @page_texts Sample.reader (repeat Byte.x61 20000)
     = Ok (repeat [97%N] 20000)
  /\ exists text,
       @_extract_pdf_text Sample.reader Sample.big_pdf Sample.empty_world
       = (Ok text, after_pdf_read Sample.empty_world)
       /\ length text = 50000.
Proof.
  assert (Hread : @PdfReader Sample.reader (f_payload Sample.big_pdf)
                  = Ok (repeat Byte.x61 20000)) by reflexivity.
  assert (Htexts : @page_texts Sample.reader (repeat Byte.x61 20000)
                   = Ok (repeat [97%N] 20000)).
  { vm_cast_no_check (@eq_refl _ (@Ok (list str) (repeat [97%N] 20000))). }
  split; [exact Hread|]. split; [exact Htexts|].
  destruct (@extraction_algorithm Sample.reader Sample.big_pdf
              Sample.empty_world _ _ Hread Htexts)
    as (Hrun & _ & _ & Hcap & _).
  eexists. split; [exact Hrun|]. apply Hcap.
  apply Nat.ltb_lt. vm_cast_no_check (@eq_refl bool true).
Defined.

(** C6 as worded fails: of three pages "a", a space and "b" the middle one
    is joined as an empty text, which leaves two blank-line separators
    between "a" and "b" where stripping before skipping leaves one. *)
Lemma blank_page_is_joined :
  @page_texts Sample.reader [Byte.x61; Byte.x20; Byte.x62]
  = Ok [lit "a"; lit " "; lit "b"]
  /\ (@_extract_pdf_text Sample.reader Sample.spaced_pdf Sample.empty_world).1
     = Ok (lit "a" ++ [LF; LF; LF; LF] ++ lit "b")
  /\ extract_as_specified [lit "a"; lit " "; lit "b"]
     = lit "a" ++ [LF; LF] ++ lit "b"
  /\ (@_extract_pdf_text Sample.reader Sample.spaced_pdf Sample.empty_world).1
     <> Ok (extract_as_specified [lit "a"; lit " "; lit "b"]).
Proof.
  split; [reflexivity|]. split; [vm_compute; reflexivity|].
  split; [vm_compute; reflexivity|].
  intros H. vm_compute in H. discriminate H.
Qed.

Lemma upload_size_limit_witness :
  @post Sample.reader 9%N 100%Z (Sample.upload 20971521) Sample.empty_world
  = (Ok {| status_code := 400;
           body := ErrorBody (lit "File must be smaller than 20MB.") |},
     Sample.empty_world)
  /\ exists doc w',
       @post Sample.reader 9%N 100%Z (Sample.upload 20971520) Sample.empty_world
       = (Ok {| status_code := 201; body := DocumentBody doc |}, w')
       /\ medical_documents (db w')
          = medical_documents (db Sample.empty_world) ++ [doc]
       /\ d_file_size doc = 20971520%N
       /\ d_original_filename doc = lit "scan.pdf".
Proof.
  split.
  - destruct (@upload_size_limit Sample.reader (Sample.upload 20971521)
                (Sample.file "scan.pdf" 20971521 [Byte.x25; Byte.x61])
                9%N 100%Z Sample.empty_world eq_refl) as [Hreject _].
    destruct Hreject as (error & Hrun & Herror); [cbn; lia|].
    rewrite Hrun, Herror; [reflexivity|discriminate].
  - destruct (@upload_size_limit Sample.reader (Sample.upload 20971520)
                (Sample.file "scan.pdf" 20971520 [Byte.x25; Byte.x61])
                9%N 100%Z Sample.empty_world eq_refl) as [_ Haccept].
    apply (Haccept ltac:(cbn; lia) ltac:(discriminate) (LAB_REPORT, None)).
    reflexivity.
Defined.

(* ================================================================== *)
(** * Records: create, update, soft delete, read *)
(* ================================================================== *)

Section order_by_head.
Context {A K : Type} `{Lexico K} `{!StrictOrder (@lexico K _)}
        `{!TrichotomyT (@lexico K _)} `{!EqDecision K}.
Variable key : A -> K.

Lemma order_by_singleton x : order_by key [x] = [x].
Proof. reflexivity. Qed.

Lemma order_by_head_elem_of l x : head (order_by key l) = Some x -> x ∈ l.
Proof.
  intros Hx. apply (order_by_elem_of key). destruct (order_by key l); [done|].
  injection Hx as ->. constructor.
Qed.

Lemma order_by_head_None l : head (order_by key l) = None <-> l = [].
Proof.
  rewrite <- (order_by_nil key). destruct (order_by key l); split; done.
Qed.

(** The first row of a query set that holds copies of one row. *)
Lemma order_by_head_uniform l x :
  l <> [] -> Forall (fun y => y = x) l -> head (order_by key l) = Some x.
Proof.
  intros Hne Hall.
  destruct (order_by key l) as [|y l'] eqn:E.
  - exfalso. apply Hne. by apply (order_by_nil key).
  - simpl. f_equal. rewrite Forall_forall in Hall. apply Hall.
    apply list_elem_of_In, (order_by_elem_of key). rewrite E. constructor.
Qed.
End order_by_head.

(** The context is a function of the backend flag, of the user's active
    records and of the user's active documents with text. *)
Lemma context_ext (d1 d2 : Database) (user : UserId) :
  nulls_order_largest d1 = nulls_order_largest d2 ->
  active_records d1 user = active_records d2 user ->
  filter (fun doc => d_extracted_text doc <> []) (active_documents d1 user)
  = filter (fun doc => d_extracted_text doc <> []) (active_documents d2 user) ->
  get_patient_medical_context d1 user = get_patient_medical_context d2 user.
Proof.
  intros Hn Hr Hd.
  unfold get_patient_medical_context, context_sections, documents_qs,
    documents_with_text, records_qs.
  by rewrite Hn, Hr, Hd.
Qed.

Lemma get_record_detail_Some d record_id user r :
  get_record_detail d record_id user = Some r ->
  r ∈ medical_records d /\ r_id r = record_id /\ r_user r = user
  /\ r_is_deleted r = false.
Proof.
  unfold get_record_detail. intros Hr. apply order_by_head_elem_of in Hr.
  apply list_elem_of_filter in Hr. tauto.
Qed.

Lemma get_record_detail_None d record_id user :
  get_record_detail d record_id user = None
  <-> Forall (fun r => r_id r = record_id ->
                       r_user r <> user \/ r_is_deleted r = true)
             (medical_records d).
Proof.
  unfold get_record_detail. rewrite order_by_head_None.
  induction (medical_records d) as [|r rows IH]; [by split|].
  rewrite Forall_cons_iff, <- IH. clear IH.
  destruct (decide (r_id r = record_id /\ r_user r = user /\ r_is_deleted r = false))
    as [Hp|Hp].
  - rewrite filter_cons_True by done. split; [done|]. intros [Hr _].
    destruct Hp as (Hi & Hu & Hd). destruct (Hr Hi); congruence.
  - rewrite filter_cons_False by done. split; [|tauto]. intros E. split; [|done].
    intros Hi. destruct (decide (r_user r = user)); [|by left]. right.
    destruct (r_is_deleted r); [done|]. exfalso. by apply Hp.
Qed.

(** X1. [get_record_detail] only ever answers with a row of the table that
    has the requested key, belongs to the requesting user and is not
    soft-deleted, and it answers [None] exactly when the table has no such
    row. *)
Theorem record_detail_is_owner_scoped (d : Database) (record_id : UUID)
    (user : UserId) :
  (forall r, get_record_detail d record_id user = Some r ->
     r ∈ medical_records d /\ r_id r = record_id /\ r_user r = user
     /\ r_is_deleted r = false)
  /\ (get_record_detail d record_id user = None
      <-> Forall (fun r => r_id r = record_id ->
                           r_user r <> user \/ r_is_deleted r = true)
                 (medical_records d)).
Proof.
  split; [intros r; apply get_record_detail_Some | apply get_record_detail_None].
Qed.

Lemma create_record_run pk now user record_type title description
    date_recorded provider status severity data ip_address user_agent w :
  let record :=
    {| r_id := pk; r_user := user; r_record_type := record_type;
       r_title := title; r_description := description;
       r_date_recorded := date_recorded; r_provider := provider;
       r_status := status; r_severity := severity;
       r_data := data_or_empty data;
       r_is_deleted := false; r_created_at := now |} in
  create_record pk now user record_type title description date_recorded
    provider status severity data ip_address user_agent w
  = (Ok record,
     {| db := {| nulls_order_largest := nulls_order_largest (db w);
                 medical_records := medical_records (db w) ++ [record];
                 medical_documents := medical_documents (db w);
                 audit_log :=
                   audit_log (db w)
                   ++ [ {| a_user_id := user; a_action := lit "CREATE";
                           a_resource_type := lit "MedicalRecord";
                           a_resource_id := pk;
                           a_ip_address := ip_address;
                           a_user_agent := user_agent;
                           a_changes :=
                             [ (lit "record_type", RecordType_value record_type);
                               (lit "title", title) ] |} ] |};
        warnings := warnings w; pdf_reads := pdf_reads w |}).
Proof. reflexivity. Qed.

Lemma detail_of_fresh_row d rows record :
  Forall (fun r => r_id r <> r_id record) rows ->
  r_is_deleted record = false ->
  medical_records d = rows ++ [record] ->
  get_record_detail d (r_id record) (r_user record) = Some record.
Proof.
  intros Hfresh Hdel Hrows. unfold get_record_detail. rewrite Hrows.
  rewrite list.filter_app.
  assert (filter (fun r => r_id r = r_id record /\ r_user r = r_user record
                           /\ r_is_deleted r = false) rows = []) as ->.
  { clear Hrows. induction rows as [|r rows IH]; [done|].
    apply Forall_cons_iff in Hfresh as [Hr Hfresh].
    rewrite filter_cons_False by tauto. by apply IH. }
  rewrite filter_cons_True by done. reflexivity.
Qed.


(* ------------------------------------------------------------------ *)
(** ** Soft delete *)

Lemma soft_delete_record_run record user ip_address user_agent w :
  Exists (fun r => r_id r = r_id record) (medical_records (db w)) ->
  soft_delete_record record user ip_address user_agent w
  = (Ok tt,
     {| db := {| nulls_order_largest := nulls_order_largest (db w);
                 medical_records :=
                   flag_deleted (r_id record) (medical_records (db w));
                 medical_documents := medical_documents (db w);
                 audit_log :=
                   audit_log (db w)
                   ++ [ {| a_user_id := user; a_action := lit "DELETE";
                           a_resource_type := lit "MedicalRecord";
                           a_resource_id := r_id record;
                           a_ip_address := ip_address;
                           a_user_agent := user_agent; a_changes := [] |} ] |};
        warnings := warnings w; pdf_reads := pdf_reads w |}).
Proof.
  intros Hex.
  unfold soft_delete_record, save_is_deleted, AuditService_log_action, bind,
    get_db, set_db, lift. simpl.
  by rewrite bool_decide_eq_true_2.
Qed.

Lemma flag_deleted_filter record_id user rows :
  filter (fun r => r_user r = user /\ r_is_deleted r = false)
         (flag_deleted record_id rows)
  = filter (fun r => r_id r <> record_id)
           (filter (fun r => r_user r = user /\ r_is_deleted r = false) rows).
Proof.
  induction rows as [|r rows IH]; [done|]. cbn [flag_deleted map].
  fold (flag_deleted record_id rows).
  destruct (decide (r_id r = record_id)) as [Hid|Hid].
  - rewrite filter_cons_False by (simpl; intros [_ ?]; done).
    rewrite IH.
    destruct (decide (r_user r = user /\ r_is_deleted r = false)).
    + rewrite (filter_cons_True _ r rows) by done.
      by rewrite filter_cons_False by (intros ?; done).
    + by rewrite (filter_cons_False _ r rows) by done.
  - destruct (decide (r_user r = user /\ r_is_deleted r = false)).
    + rewrite !filter_cons_True by done. by rewrite IH.
    + by rewrite !filter_cons_False by done.
Qed.

Lemma flag_deleted_hides record_id rows :
  Forall (fun r => r_id r = record_id -> r_is_deleted r = true)
         (flag_deleted record_id rows).
Proof.
  induction rows as [|r rows IH]; constructor; [|done].
  destruct (decide (r_id r = record_id)); simpl; [done|].
  intros ?. done.
Qed.

(** X3. Soft-deleting a stored record flags its row and removes nothing: the
    table keeps its length, [get_record_detail] no longer finds the key for
    any user, every user's active records are the former ones without that
    key, the documents stay, and the audit log gains one DELETE entry. *)
Theorem soft_delete_hides_record (record : MedicalRecord) (user : UserId)
    (ip_address : option str) (user_agent : str) (w : World) :
  Exists (fun r => r_id r = r_id record) (medical_records (db w)) ->
  exists w',
    soft_delete_record record user ip_address user_agent w = (Ok tt, w')
    /\ length (medical_records (db w')) = length (medical_records (db w))
    /\ (forall u, get_record_detail (db w') (r_id record) u = None)
    /\ (forall u, active_records (db w') u
                  = filter (fun r => r_id r <> r_id record)
                           (active_records (db w) u))
    /\ medical_documents (db w') = medical_documents (db w)
    /\ exists entry,
         audit_log (db w') = audit_log (db w) ++ [entry]
         /\ a_action entry = lit "DELETE"
         /\ a_resource_id entry = r_id record.
Proof.
  intros Hex. rewrite soft_delete_record_run by done.
  eexists. split; [reflexivity|]. simpl.
  split; [apply length_map|]. split.
  { intros u. apply get_record_detail_None. simpl.
    generalize (flag_deleted_hides (r_id record) (medical_records (db w))).
    apply Forall_impl. intros r Hr Hid. right. by apply Hr. }
  split; [intros u; apply flag_deleted_filter|].
  split; [done|]. eexists. by repeat split.
Qed.

(* ------------------------------------------------------------------ *)
(** ** Update *)

Lemma update_fold str_of_dict record updates :
  fold_left (update_step str_of_dict updates) allowed_fields (record, [])
  = (updated_fields record updates, changed_keys str_of_dict updates).
Proof.
  destruct record, updates as [[?|] [?|] [?|] [?|] [?|] [?|] [?|] [?|]];
    reflexivity.
Qed.

Lemma update_record_run str_of_dict record user updates ip_address user_agent w :
  update_record str_of_dict record user updates ip_address user_agent w
  = (Ok (updated_fields record updates),
     {| db := {| nulls_order_largest := nulls_order_largest (db w);
                 medical_records :=
                   saved_rows (updated_fields record updates)
                              (medical_records (db w));
                 medical_documents := medical_documents (db w);
                 audit_log :=
                   audit_log (db w)
                   ++ [ {| a_user_id := user; a_action := lit "UPDATE";
                           a_resource_type := lit "MedicalRecord";
                           a_resource_id := r_id record;
                           a_ip_address := ip_address;
                           a_user_agent := user_agent;
                           a_changes := changed_keys str_of_dict updates |} ] |};
        warnings := warnings w; pdf_reads := pdf_reads w |}).
Proof. unfold update_record. rewrite update_fold. reflexivity. Qed.

Lemma saved_rows_detail d record rows :
  r_is_deleted record = false ->
  medical_records d = saved_rows record rows ->
  get_record_detail d (r_id record) (r_user record) = Some record.
Proof.
  intros Hdel Hrows. unfold saved_rows in Hrows.
  destruct (bool_decide (Exists (fun r => r_id r = r_id record) rows)) eqn:Hex.
  - apply bool_decide_eq_true_1 in Hex.
    unfold get_record_detail. rewrite Hrows. clear Hrows.
    apply order_by_head_uniform.
    + induction Hex as [r rows Hr|r rows Hex IH]; cbn [map].
      * rewrite decide_True by done. by rewrite filter_cons_True.
      * destruct (decide (r_id r = r_id record)).
        -- by rewrite filter_cons_True.
        -- by rewrite filter_cons_False by tauto.
    + apply Forall_forall. intros r Hr.
      apply list_elem_of_In, list_elem_of_filter in Hr as [(Hid & _) Hr].
      apply list_elem_of_In, in_map_iff in Hr as (r' & Hr' & _).
      destruct (decide (r_id r' = r_id record)); congruence.
  - apply bool_decide_eq_false_1 in Hex.
    apply (detail_of_fresh_row _ rows); [|done|done].
    apply Forall_forall. intros r Hr Hid. apply Hex.
    apply Exists_exists. by exists r.
Qed.

Lemma saved_rows_others record rows :
  filter (fun r => r_id r <> r_id record) (saved_rows record rows)
  = filter (fun r => r_id r <> r_id record) rows.
Proof.
  unfold saved_rows.
  destruct (bool_decide (Exists (fun r => r_id r = r_id record) rows)).
  - induction rows as [|r rows IH]; [done|]. cbn [map].
    destruct (decide (r_id r = r_id record)).
    + rewrite !filter_cons_False by (intros Hc; by apply Hc). done.
    + rewrite !filter_cons_True by done. by rewrite IH.
  - rewrite list.filter_app.
    rewrite (filter_cons_False _ record []) by (intros Hc; by apply Hc).
    by rewrite app_nil_r.
Qed.

(** X4. An update writes exactly the keys present in [updates]: the record
    returned has the new value for each key present and the old value for
    each key absent, and always its old key, owner, deletion flag and
    creation time; the table is the old one with the row of that key
    replaced; and the audit log gains one UPDATE entry whose changes are the
    present keys with the [str] of their values, in the order of
    [allowed_fields]. *)
Theorem update_record_writes_present_keys
    (str_of_dict : JSONData -> str) (record : MedicalRecord)
    (user : UserId) (updates : Updates) (ip_address : option str)
    (user_agent : str) (w : World) :
  exists w',
    update_record str_of_dict record user updates ip_address user_agent w
    = (Ok (updated_fields record updates), w')
    /\ r_id (updated_fields record updates) = r_id record
    /\ r_user (updated_fields record updates) = r_user record
    /\ r_is_deleted (updated_fields record updates) = r_is_deleted record
    /\ r_created_at (updated_fields record updates) = r_created_at record
    /\ medical_records (db w')
       = saved_rows (updated_fields record updates) (medical_records (db w))
    /\ filter (fun r => r_id r <> r_id record) (medical_records (db w'))
       = filter (fun r => r_id r <> r_id record) (medical_records (db w))
    /\ medical_documents (db w') = medical_documents (db w)
    /\ exists entry,
         audit_log (db w') = audit_log (db w) ++ [entry]
         /\ a_action entry = lit "UPDATE"
         /\ a_resource_id entry = r_id record
         /\ a_changes entry = changed_keys str_of_dict updates.
Proof.
  rewrite update_record_run. eexists. split; [reflexivity|]. simpl.
  repeat (split; [reflexivity|]).
  split; [apply (saved_rows_others (updated_fields record updates))|].
  split; [reflexivity|]. eexists. by repeat split.
Qed.

(** X5. After an update of a record that is not deleted,
    [get_record_detail] returns the updated record for its key and owner. *)
Theorem update_record_round_trip (str_of_dict : JSONData -> str)
    (record : MedicalRecord) (user : UserId) (updates : Updates)
    (ip_address : option str) (user_agent : str) (w : World) :
  r_is_deleted record = false ->
  exists record' w',
    update_record str_of_dict record user updates ip_address user_agent w
    = (Ok record', w')
    /\ get_record_detail (db w') (r_id record) (r_user record) = Some record'
    /\ r_title record' = default (r_title record) (u_title updates)
    /\ r_record_type record'
       = default (r_record_type record) (u_record_type updates)
    /\ r_data record' = default (r_data record) (u_data updates).
Proof.
  intros Hdel. rewrite update_record_run. eexists _, _.
  split; [reflexivity|]. split; [|by repeat split].
  apply (saved_rows_detail _ (updated_fields record updates)
           (medical_records (db w))); [done|reflexivity].
Qed.

(* ------------------------------------------------------------------ *)
(** ** Listings *)

Lemma record_recency_key_le nl a b :
  key_le (record_recency_key nl a) (record_recency_key nl b) ->
  recency_order nl a b.
Proof.
  unfold key_le, record_recency_key, recency_order.
  intros [[Hlt|[Heq Hc]]|Heq]; simpl in *.
  - split; [apply date_desc_key_order; by left|].
    intros E. rewrite E in Hlt. by apply irreflexivity in Hlt; [|apply _].
  - split; [apply date_desc_key_order; by right|].
    intros _. unfold lexico, Z_lexico in Hc. lia.
  - injection Heq as Hd Hc.
    split; [apply date_desc_key_order; by right|]. intros _. lia.
Qed.

(** X6. The listing of a user's records holds exactly the rows of the table
    that belong to the user, are not soft-deleted and, when a non-empty type
    is asked for, have that type as their stored value; it is ordered by
    date descending and, within one date, latest created first; an empty
    type filters nothing, and a type that is the value of no category gives
    the empty listing. *)
Theorem get_user_records_listing (d : Database) (user : UserId)
    (record_type : option str) :
  (forall r, r ∈ get_user_records d user record_type
     <-> r ∈ medical_records d /\ r_user r = user /\ r_is_deleted r = false
         /\ (record_type = None \/ record_type = Some []
             \/ record_type = Some (RecordType_value (r_record_type r))))
  /\ StronglySorted (recency_order (nulls_order_largest d))
                    (get_user_records d user record_type)
  /\ get_user_records d user (Some []) = get_user_records d user None
  /\ (forall t, t <> [] -> Forall (fun c => RecordType_value c <> t)
                                  RecordType_members ->
        get_user_records d user (Some t) = []).
Proof.
  split; [|split; [|split]].
  - intros r. unfold get_user_records. rewrite order_by_elem_of.
    destruct record_type as [[|c t]|].
    + unfold active_records. rewrite list_elem_of_filter.
      split; [intros [[Hu Hd] Hin]; auto 6 | intros (Hin & Hu & Hd & _); auto].
    + unfold active_records. rewrite !list_elem_of_filter. split.
      * intros [Hv [[Hu Hd] Hin]]. repeat split; try done.
        right. right. by rewrite Hv.
      * intros (Hin & Hu & Hd & [Ht|[Ht|Ht]]); try discriminate Ht.
        injection Ht as Ht. by repeat split.
    + unfold active_records. rewrite list_elem_of_filter.
      split; [intros [[Hu Hd] Hin]; auto 6 | intros (Hin & Hu & Hd & _); auto].
  - eapply StronglySorted_weaken; [|apply order_by_StronglySorted].
    intros a b. apply record_recency_key_le.
  - reflexivity.
  - intros t Ht Hno. unfold get_user_records.
    destruct t as [|c t]; [done|]. apply (order_by_nil _).
    induction (active_records d user) as [|r rows IH]; [done|].
    rewrite filter_cons_False; [done|].
    intros E. rewrite Forall_forall in Hno. apply (Hno (r_record_type r)); [|done].
    destruct (r_record_type r); cbv; tauto.
Qed.

(** X7. The listing of a user's documents holds exactly the user's rows
    that are not soft-deleted, latest created first, and every document
    that the context assembler takes is in the listing. *)
Theorem get_user_documents_listing (d : Database) (user : UserId) :
  (forall doc, doc ∈ get_user_documents d user
     <-> doc ∈ medical_documents d /\ d_user doc = user
         /\ d_is_deleted doc = false)
  /\ StronglySorted (fun a b => (d_created_at b <= d_created_at a)%Z)
                    (get_user_documents d user)
  /\ (forall doc, doc ∈ documents_qs d user ->
        doc ∈ get_user_documents d user /\ d_extracted_text doc <> []).
Proof.
  split; [|split].
  - intros doc. unfold get_user_documents.
    by rewrite order_by_elem_of, active_documents_elem_of.
  - eapply StronglySorted_weaken; [|apply order_by_StronglySorted].
    intros a b. unfold key_le, document_order_key, lexico, Z_lexico. lia.
  - intros doc Hdoc. apply documents_qs_elem_of in Hdoc.
    apply documents_with_text_elem_of in Hdoc as [Hact Htext].
    split; [|done]. unfold get_user_documents. by rewrite order_by_elem_of.
Qed.

(* ------------------------------------------------------------------ *)
(** ** The record views *)

(** X8. For a key that the requesting user has no live record under, be it
    unknown, another user's or soft-deleted, the three detail views answer
    the same 404 and leave the world as it was; PATCH does so before it
    looks at the request data, valid or not. *)
Theorem detail_views_not_found (str_of_dict : JSONData -> str)
    (record_id : UUID) (user : UserId) (validated : result Updates)
    (ip_address user_agent : option str) (w : World) :
  Forall (fun r => r_id r = record_id ->
                   r_user r <> user \/ r_is_deleted r = true)
         (medical_records (db w)) ->
  detail_get record_id user w = (Ok not_found, w)
  /\ detail_patch str_of_dict record_id user validated ip_address user_agent w
     = (Ok not_found, w)
  /\ detail_delete record_id user ip_address user_agent w = (Ok not_found, w).
Proof.
  intros Hnone. apply get_record_detail_None in Hnone.
  unfold detail_get, detail_patch, detail_delete, bind, get_db.
  by rewrite Hnone.
Qed.

(** X9. DELETE on a live record of the user answers 204; from then on GET
    and a second DELETE on the same key answer 404, and the second DELETE
    changes nothing. *)
Theorem detail_delete_then_not_found (record_id : UUID) (user : UserId)
    (ip_address user_agent : option str) (w : World) (record : MedicalRecord) :
  get_record_detail (db w) record_id user = Some record ->
  exists w',
    detail_delete record_id user ip_address user_agent w
    = (Ok {| http_status := 204; content := NoContent |}, w')
    /\ detail_get record_id user w' = (Ok not_found, w')
    /\ detail_delete record_id user ip_address user_agent w'
       = (Ok not_found, w')
    /\ length (medical_records (db w')) = length (medical_records (db w)).
Proof.
  intros Hrec. destruct (get_record_detail_Some _ _ _ _ Hrec) as (Hin & Hid & _).
  assert (Hex : Exists (fun r => r_id r = r_id record) (medical_records (db w))).
  { apply Exists_exists. exists record. split; [by apply list_elem_of_In|done]. }
  unfold detail_delete at 1. unfold bind at 1. unfold get_db at 1.
  rewrite Hrec. unfold bind. rewrite soft_delete_record_run by done.
  eexists. split; [reflexivity|].
  assert (Hnone : forall u,
             get_record_detail
               {| nulls_order_largest := nulls_order_largest (db w);
                  medical_records :=
                    flag_deleted (r_id record) (medical_records (db w));
                  medical_documents := medical_documents (db w);
                  audit_log :=
                    audit_log (db w)
                    ++ [ {| a_user_id := user; a_action := lit "DELETE";
                            a_resource_type := lit "MedicalRecord";
                            a_resource_id := r_id record;
                            a_ip_address := ip_address;
                            a_user_agent := default [] user_agent;
                            a_changes := [] |} ] |} record_id u = None).
  { intros u. apply get_record_detail_None. simpl. rewrite <- Hid.
    generalize (flag_deleted_hides (r_id record) (medical_records (db w))).
    apply Forall_impl. intros r Hr Hi. right. by apply Hr. }
  unfold detail_get, detail_delete, bind, get_db. simpl.
  rewrite Hnone. repeat split. apply length_map.
Qed.

(** X10. POST with data that validates, under a key that no row has yet,
    answers 201 with the new record, and GET on that key then answers 200
    with the same body; when validation raises, the exception leaves the
    view and the world is as it was. *)
Theorem list_create_then_detail (pk : UUID) (now : Z) (user : UserId)
    (data : CreateData) (e : exn) (ip_address user_agent : option str)
    (w : World) :
  Forall (fun r => r_id r <> pk) (medical_records (db w)) ->
  (exists record w',
     list_create pk now user (Ok data) ip_address user_agent w
     = (Ok {| http_status := 201;
              content := MedicalRecordSerializer_data (db w') record |}, w')
     /\ r_title record = c_title data
     /\ r_record_type record = c_record_type data
     /\ detail_get pk user w'
        = (Ok {| http_status := 200;
                 content := MedicalRecordSerializer_data (db w') record |}, w'))
  /\ list_create pk now user (Raise e) ip_address user_agent w = (Raise e, w).
Proof.
  intros Hfresh. split; [|reflexivity].
  unfold list_create, bind, lift. rewrite create_record_run. cbv zeta.
  unfold get_db, ret. eexists _, _. split; [reflexivity|].
  split; [reflexivity|]. split; [reflexivity|].
  unfold detail_get, bind, get_db. simpl db.
  erewrite (detail_of_fresh_row _ (medical_records (db w))
              {| r_id := pk; r_user := user |}); [reflexivity|done|done|].
  reflexivity.
Qed.

(** X11. PATCH on a live record of the user with data that validates answers
    200 with the updated record, and GET on the key then answers 200 with
    the same body; with data that does not validate the exception leaves
    the view and the world is as it was. *)
Theorem detail_patch_then_detail (str_of_dict : JSONData -> str)
    (record_id : UUID) (user : UserId) (updates : Updates) (e : exn)
    (ip_address user_agent : option str) (w : World) (record : MedicalRecord) :
  get_record_detail (db w) record_id user = Some record ->
  (exists w',
     detail_patch str_of_dict record_id user (Ok updates) ip_address
       user_agent w
     = (Ok {| http_status := 200;
              content := MedicalRecordSerializer_data (db w')
                           (updated_fields record updates) |}, w')
     /\ detail_get record_id user w'
        = (Ok {| http_status := 200;
                 content := MedicalRecordSerializer_data (db w')
                              (updated_fields record updates) |}, w'))
  /\ detail_patch str_of_dict record_id user (Raise e) ip_address user_agent w
     = (Raise e, w).
Proof.
  intros Hrec.
  destruct (get_record_detail_Some _ _ _ _ Hrec) as (Hin & Hid & Hu & Hdel).
  split.
  - unfold detail_patch, bind, get_db, lift. rewrite Hrec.
    rewrite update_record_run. unfold ret. eexists. split; [reflexivity|].
    unfold detail_get, bind, get_db. simpl db.
    rewrite <- Hid, <- Hu.
    erewrite (saved_rows_detail _ (updated_fields record updates)
                (medical_records (db w))); [reflexivity|done|reflexivity].
  - unfold detail_patch, bind, get_db, lift. by rewrite Hrec.
Qed.

(* ------------------------------------------------------------------ *)
(** ** Writes and the context *)

Lemma filter_swap {A} (P Q : A -> Prop) `{!forall x, Decision (P x)}
    `{!forall x, Decision (Q x)} (l : list A) :
  filter P (filter Q l) = filter Q (filter P l).
Proof.
  induction l as [|x l IH]; [done|].
  destruct (decide (P x)), (decide (Q x));
    rewrite ?(filter_cons_True P x l), ?(filter_cons_False P x l),
      ?(filter_cons_True Q x l), ?(filter_cons_False Q x l) by done;
    rewrite ?filter_cons_True, ?filter_cons_False by done; by rewrite IH.
Qed.

(** X12. After a soft delete the context of every user is the context of the
    database without the rows of the deleted key; so the context of a user
    whose active records all have that key becomes empty, whatever documents
    the user has. *)
Theorem soft_delete_context (record : MedicalRecord) (user : UserId)
    (ip_address : option str) (user_agent : str) (w : World) (u : UserId) :
  Exists (fun r => r_id r = r_id record) (medical_records (db w)) ->
  exists w',
    soft_delete_record record user ip_address user_agent w = (Ok tt, w')
    /\ get_patient_medical_context (db w') u
       = get_patient_medical_context (without_record (r_id record) (db w)) u
    /\ (Forall (fun r => r_id r = r_id record) (active_records (db w) u) ->
        get_patient_medical_context (db w') u = Ok []).
Proof.
  intros Hex. rewrite soft_delete_record_run by done.
  eexists. split; [reflexivity|].
  assert (Hact : active_records
                   {| nulls_order_largest := nulls_order_largest (db w);
                      medical_records :=
                        flag_deleted (r_id record) (medical_records (db w));
                      medical_documents := medical_documents (db w);
                      audit_log :=
                        audit_log (db w)
                        ++ [ {| a_user_id := user; a_action := lit "DELETE";
                                a_resource_type := lit "MedicalRecord";
                                a_resource_id := r_id record;
                                a_ip_address := ip_address;
                                a_user_agent := user_agent;
                                a_changes := [] |} ] |} u
                 = filter (fun r => r_id r <> r_id record)
                          (active_records (db w) u))
    by apply flag_deleted_filter.
  simpl db. split.
  - apply context_ext; [done| |done].
    rewrite Hact. unfold active_records, without_record. simpl.
    apply filter_swap.
  - intros Hall. unfold get_patient_medical_context, records_qs.
    rewrite Hact.
    assert (filter (fun r => r_id r <> r_id record) (active_records (db w) u) = [])
      as ->; [|done].
    revert Hall. generalize (active_records (db w) u). intros rows Hall.
    induction Hall as [|r rows Hr Hall IH]; [done|].
    rewrite filter_cons_False by (intros Hc; by apply Hc). exact IH.
Qed.

Lemma context_after_document (d d' : Database) (doc : MedicalDocument)
    (u : UserId) :
  nulls_order_largest d' = nulls_order_largest d ->
  medical_records d' = medical_records d ->
  medical_documents d' = medical_documents d ++ [doc] ->
  d_user doc <> u \/ d_extracted_text doc = [] ->
  get_patient_medical_context d' u = get_patient_medical_context d u.
Proof.
  intros Hn Hr Hd Hdoc. apply context_ext; [done| |].
  - unfold active_records. by rewrite Hr.
  - unfold active_documents. rewrite Hd, list.filter_app, list.filter_app.
    assert (filter (fun doc => d_extracted_text doc <> [])
              (filter (fun d0 => d_user d0 = u /\ d_is_deleted d0 = false) [doc])
            = []) as ->; [|by rewrite app_nil_r].
    destruct (decide (d_user doc = u /\ d_is_deleted doc = false)) as [Hp|Hp].
    + rewrite (filter_cons_True _ doc []) by done.
      rewrite filter_cons_False; [done|]. intros Hc. apply Hc.
      destruct Hdoc as [Hne|He]; [|done]. by destruct Hp.
    + by rewrite (filter_cons_False _ doc []) by done.
Qed.

(** X13. The assembler raises exactly when an active record of the user
    holds a truthy value of [data] that is not a JSON object, the exception
    being the [AttributeError] of such a record, and returns otherwise. A
    context that it returns is empty exactly when the user has no active
    record; otherwise it begins with the heading of the category of the
    first record of the query set, which the overall cap never cuts. *)
Theorem context_empty_iff_no_record (d : Database) (user : UserId) :
  ((exists e, get_patient_medical_context d user = Raise e)
   <-> exists r, r ∈ medical_records d /\ r_user r = user
                 /\ r_is_deleted r = false /\ data_raises r = true)
  /\ (forall e, get_patient_medical_context d user = Raise e ->
        exists r kind,
          r ∈ medical_records d /\ r_user r = user /\ r_is_deleted r = false
          /\ r_data r = JOther kind true /\ e = AttributeError kind)
  /\ ((exists context, get_patient_medical_context d user = Ok context)
      <-> existsb data_raises (records_qs d user) = false)
  /\ (get_patient_medical_context d user = Ok []
      <-> active_records d user = [])
  /\ match records_qs d user with
     | [] => get_patient_medical_context d user = Ok []
     | r :: _ =>
         forall context, get_patient_medical_context d user = Ok context ->
           record_heading (r_record_type r) `prefix_of` context
     end.
Proof.
  assert (Hrun : get_patient_medical_context d user
            = match loop_exception (records_qs d user) with
              | Some e => Raise e
              | None =>
                  match records_qs d user with
                  | [] => Ok []
                  | _ :: _ =>
                      Ok (take 10000
                            (join [LF]
                               (lines_from None (records_qs d user)
                                ++ document_sections (documents_qs d user))))
                  end
              end).
  { unfold get_patient_medical_context. rewrite context_sections_lines.
    destruct (records_qs d user); [done|].
    by destruct (loop_exception (m :: l)). }
  assert (Hhead : forall r rest context,
            records_qs d user = r :: rest ->
            get_patient_medical_context d user = Ok context ->
            record_heading (r_record_type r) `prefix_of` context).
  { intros r rest context E. rewrite Hrun, E.
    destruct (loop_exception (r :: rest)); [done|]. intros H.
    assert (Hc : context
              = take 10000
                  (join [LF]
                     (lines_from None (r :: rest)
                      ++ document_sections (documents_qs d user))))
      by congruence.
    rewrite Hc. clear H Hc. cbn [lines_from].
    destruct (decide (Some (r_record_type r) = None)) as [?|_]; [done|].
    unfold record_lines. cbn [app].
    change (join [LF] (record_heading (r_record_type r) :: summary_line r :: ?l))
      with (record_heading (r_record_type r)
              ++ [LF] ++ join [LF] (summary_line r :: l)).
    rewrite take_app_ge.
    - by apply prefix_app_r.
    - destruct (r_record_type r); vm_compute; lia. }
  assert (Hraise : (exists e, get_patient_medical_context d user = Raise e)
                   <-> existsb data_raises (records_qs d user) = true).
  { rewrite Hrun.
    destruct (loop_exception (records_qs d user)) as [e|] eqn:E.
    - split; [|by exists e]. intros _.
      destruct (existsb data_raises (records_qs d user)) eqn:Hb; [done|].
      apply loop_exception_None in Hb. congruence.
    - apply loop_exception_None in E. rewrite E. split; [|done].
      intros [e He]. by destruct (records_qs d user). }
  split; [by rewrite Hraise, data_raises_in_query_set|].
  split.
  { intros e. rewrite Hrun.
    destruct (loop_exception (records_qs d user)) as [e'|] eqn:E.
    - intros [= <-].
      destruct (loop_exception_Some _ _ E) as (r & kind & Hr & Hk & ->).
      exists r, kind. unfold records_qs in Hr.
      rewrite order_by_elem_of in Hr. unfold active_records in Hr.
      apply list_elem_of_filter in Hr as [[Hu Hd] Hr]. done.
    - by destruct (records_qs d user). }
  split.
  { destruct (existsb data_raises (records_qs d user)) eqn:Hb.
    - split; [|done]. intros [context Hctx].
      destruct (proj2 Hraise eq_refl) as [e He]. congruence.
    - split; [done|]. intros _. apply loop_exception_None in Hb.
      rewrite Hrun, Hb. destruct (records_qs d user); by eexists. }
  split.
  - split.
    + intros E. destruct (records_qs d user) as [|r rest] eqn:Hq.
      * unfold records_qs in Hq. by apply order_by_nil in Hq.
      * destruct (Hhead r rest [] eq_refl E) as [k Hk]. discriminate Hk.
    + intros E. unfold get_patient_medical_context, records_qs. by rewrite E.
  - destruct (records_qs d user) as [|r rest] eqn:Hq.
    + unfold get_patient_medical_context. by rewrite Hq.
    + intros context. by apply (Hhead r rest).
Qed.

(** X14. When the assembler gets to join its sections, every record of the
    query set has contributed its summary line and, its data being a JSON
    object or falsy, one line for each item of the object, key and value in
    full; when the joined text fits the overall cap each of these lines
    occurs in the context returned. *)
Theorem record_lines_in_context (d : Database) (user : UserId)
    (sections : list str) (r : MedicalRecord) :
  context_sections d user = Ok sections ->
  r ∈ records_qs d user ->
  data_raises r = false
  /\ summary_line r ∈ sections
  /\ (forall items kv, r_data r = JObject items -> kv ∈ items ->
        lit "  " ++ kv.1 ++ lit ": " ++ kv.2 ∈ sections)
  /\ (length (join [LF] sections) <= 10000 ->
      exists context,
        get_patient_medical_context d user = Ok context
        /\ forall line, line ∈ record_lines r -> occurs_in line context).
Proof.
  intros Hs Hr.
  destruct (context_sections_Ok d user sections Hs) as [Hno Hsec].
  assert (Hlines : forall line, line ∈ record_lines r -> line ∈ sections).
  { intros line Hline. rewrite Hsec. apply elem_of_app. left.
    by apply (lines_from_contains _ _ r). }
  split.
  { destruct (data_raises r) eqn:Hraise; [|done].
    assert (existsb data_raises (records_qs d user) = true); [|congruence].
    apply existsb_exists. exists r. split; [by apply list_elem_of_In|done]. }
  split; [apply Hlines; unfold record_lines; constructor|].
  split.
  - intros items kv Hitems Hkv. apply Hlines. unfold record_lines.
    rewrite Hitems. apply elem_of_cons. right. apply elem_of_app. right.
    apply list_elem_of_In, (in_map data_line). by apply list_elem_of_In.
  - intros Hfit. exists (join [LF] sections). split.
    + apply context_untruncated; [done| |done].
      intros E. rewrite E in Hr. by apply elem_of_nil in Hr.
    + intros line Hline. apply join_contains. by apply Hlines.
Qed.

(* ------------------------------------------------------------------ *)
(** ** Uploads and the context *)

Section UploadFacts.
Context `{rt : Runtime}.

Lemma collect_text_raises pages text_parts p e :
  p ∈ pages -> extract_text p = Raise e ->
  exists p' e', p' ∈ pages /\ extract_text p' = Raise e'
                /\ collect_text pages text_parts = Raise e'.
Proof.
  revert text_parts. induction pages as [|q pages IH]; intros text_parts Hp He.
  - by apply elem_of_nil in Hp.
  - simpl. destruct (extract_text q) as [t|eq] eqn:Hq.
    + apply elem_of_cons in Hp as [->|Hp]; [congruence|].
      destruct (IH (if truthy t then text_parts ++ [strip t] else text_parts)
                  Hp He) as (p' & e' & Hp' & He' & Hrun).
      exists p', e'. split; [by apply elem_of_cons; right|done].
    + exists q, eq. split; [constructor|done].
Qed.

(** X15. The extractor is all or nothing: when the payload parses but the
    text of some page cannot be extracted, the texts of the pages before it
    are dropped and the result is the empty string, with one warning that
    holds the exception of a failing page. *)
Theorem extraction_all_or_nothing (file : UploadedFile) (w : World)
    (pages : list page) (p : page) (e : exn) :
  PdfReader (f_payload file) = Ok pages ->
  p ∈ pages -> extract_text p = Raise e ->
  exists p' e',
    p' ∈ pages /\ extract_text p' = Raise e'
    /\ _extract_pdf_text file w = (Ok [], after_failed_read w e').
Proof.
  intros Hread Hp He.
  destruct (collect_text_raises pages [] p e Hp He) as (p' & e' & Hp' & He' & Hrun).
  exists p', e'. split; [done|]. split; [done|].
  rewrite extract_pdf_text_run. unfold parsed_parts. by rewrite Hread, Hrun.
Qed.

(** What an upload does to the world. *)
Lemma upload_document_effect file pk now user document_type record
    ip_address user_agent w :
  exists doc w',
    upload_document pk now user file document_type record ip_address
      user_agent w = (Ok doc, w')
    /\ nulls_order_largest (db w') = nulls_order_largest (db w)
    /\ medical_records (db w') = medical_records (db w)
    /\ medical_documents (db w') = medical_documents (db w) ++ [doc]
    /\ length (audit_log (db w')) = S (length (audit_log (db w)))
    /\ d_id doc = pk /\ d_user doc = user /\ d_is_deleted doc = false
    /\ d_record doc = r_id <$> record
    /\ length (d_extracted_text doc) <= 50000
    /\ (endswith (lower (f_name file)) (lit ".pdf") = false ->
        d_extracted_text doc = [] /\ pdf_reads w' = pdf_reads w
        /\ warnings w' = warnings w).
Proof.
  unfold upload_document, atomic, bind.
  destruct (endswith (lower (f_name file)) (lit ".pdf"));
    [rewrite extract_pdf_text_run; destruct (parsed_parts file)|];
    eexists _, _; (split; [reflexivity|]);
    cbn [db nulls_order_largest medical_records medical_documents audit_log
         d_id d_user d_is_deleted d_record d_extracted_text pdf_reads warnings
         after_pdf_read after_failed_read];
    repeat match goal with |- _ /\ _ => split end;
    try (rewrite ?length_take; cbn [length]; lia);
    try (rewrite length_app; cbn [length]; lia);
    try reflexivity; try (intros; discriminate); intros _; by repeat split.
Qed.

(** X16. A file whose name does not end in .pdf, in any letter case, is
    stored without a run of the extractor and without a warning, with an
    empty extracted text, and its upload changes no user's context. *)
Theorem upload_without_pdf_suffix (file : UploadedFile) (pk : UUID) (now : Z)
    (user : UserId) (document_type : DocumentType)
    (record : option MedicalRecord) (ip_address : option str)
    (user_agent : str) (w : World) :
  endswith (lower (f_name file)) (lit ".pdf") = false ->
  exists doc w',
    upload_document pk now user file document_type record ip_address
      user_agent w = (Ok doc, w')
    /\ d_extracted_text doc = []
    /\ pdf_reads w' = pdf_reads w /\ warnings w' = warnings w
    /\ forall u, get_patient_medical_context (db w') u
                 = get_patient_medical_context (db w) u.
Proof.
  intros Hsuffix.
  destruct (upload_document_effect file pk now user document_type record
              ip_address user_agent w)
    as (doc & w' & Hrun & Hn & Hr & Hd & _ & _ & _ & _ & _ & _ & Hplain).
  destruct (Hplain Hsuffix) as (Htext & Hreads & Hwarn).
  exists doc, w'. repeat (split; [done|]).
  intros u. apply (context_after_document _ _ doc); auto.
Qed.

(** X17. Whatever the file, the stored extracted text has at most 50,000
    characters, the document belongs to the uploader and is not deleted, the
    table of records is untouched, and the upload changes the context of no
    other user, nor the uploader's when the stored text is empty. *)
Theorem upload_document_cap_and_isolation (file : UploadedFile) (pk : UUID)
    (now : Z) (user : UserId) (document_type : DocumentType)
    (record : option MedicalRecord) (ip_address : option str)
    (user_agent : str) (w : World) :
  exists doc w',
    upload_document pk now user file document_type record ip_address
      user_agent w = (Ok doc, w')
    /\ length (d_extracted_text doc) <= 50000
    /\ d_user doc = user /\ d_is_deleted doc = false
    /\ medical_records (db w') = medical_records (db w)
    /\ (forall u, u <> user ->
          get_patient_medical_context (db w') u
          = get_patient_medical_context (db w) u)
    /\ (d_extracted_text doc = [] ->
        forall u, get_patient_medical_context (db w') u
                  = get_patient_medical_context (db w) u).
Proof.
  destruct (upload_document_effect file pk now user document_type record
              ip_address user_agent w)
    as (doc & w' & Hrun & Hn & Hr & Hd & _ & _ & Hu & Hdel & _ & Hcap & _).
  exists doc, w'. repeat (split; [done|]). split.
  - intros u Hne. apply (context_after_document _ _ doc); auto.
    left. congruence.
  - intros Htext u. apply (context_after_document _ _ doc); auto.
Qed.

(** X18. An uploaded document is listed by [get_user_documents] for the
    uploader at once, is ranked among the documents with text when its
    stored text is not empty, and the documents listed before stay listed. *)
Theorem upload_document_is_listed (file : UploadedFile) (pk : UUID)
    (now : Z) (user : UserId) (document_type : DocumentType)
    (record : option MedicalRecord) (ip_address : option str)
    (user_agent : str) (w : World) :
  exists doc w',
    upload_document pk now user file document_type record ip_address
      user_agent w = (Ok doc, w')
    /\ doc ∈ get_user_documents (db w') user
    /\ (d_extracted_text doc <> [] -> doc ∈ documents_with_text (db w') user)
    /\ (forall old, old ∈ get_user_documents (db w) user ->
          old ∈ get_user_documents (db w') user).
Proof.
  destruct (upload_document_effect file pk now user document_type record
              ip_address user_agent w)
    as (doc & w' & Hrun & Hn & Hr & Hd & _ & _ & Hu & Hdel & _ & _ & _).
  exists doc, w'. split; [done|].
  assert (Hact : doc ∈ active_documents (db w') user).
  { apply active_documents_elem_of. rewrite Hd. split; [|done].
    apply elem_of_app. right. constructor. }
  split; [unfold get_user_documents; by rewrite order_by_elem_of|].
  split; [intros Htext; by apply documents_with_text_elem_of|].
  intros old. unfold get_user_documents. rewrite !order_by_elem_of.
  rewrite !active_documents_elem_of, Hd. intros (Hin & ? & ?).
  split; [|done]. apply elem_of_app. by left.
Qed.

End UploadFacts.

(* ------------------------------------------------------------------ *)
(** ** The properties above on the sample data *)


Lemma soft_delete_hides_record_witness :
  Exists (fun r => r_id r = r_id Sample.inhaler)
         (medical_records (db Sample.clinic))
  /\ exists w',
       soft_delete_record Sample.inhaler Sample.alice None [] Sample.clinic
       = (Ok tt, w')
       /\ length (medical_records (db w')) = 3
       /\ get_record_detail (db w') 11 Sample.alice = None
       /\ active_records (db w') Sample.alice = [].
Proof.
  assert (Hex : Exists (fun r => r_id r = r_id Sample.inhaler)
                       (medical_records (db Sample.clinic)))
    by (by constructor).
  split; [exact Hex|].
  destruct (soft_delete_hides_record Sample.inhaler Sample.alice None []
              Sample.clinic Hex)
    as (w' & Hrun & Hlen & Hget & Hact & _).
  exists w'. split; [done|]. split; [by rewrite Hlen|].
  split; [apply Hget|]. by rewrite Hact.
Defined.

Lemma update_record_round_trip_witness :
  r_is_deleted Sample.inhaler = false
  /\ exists record' w',
       update_record Sample.dict_str Sample.inhaler Sample.alice Sample.retitle
         None [] Sample.clinic = (Ok record', w')
       /\ get_record_detail (db w') 11 Sample.alice = Some record'
       /\ r_title record' = lit "Asthma, mild"
       /\ r_record_type record' = CONDITION
       /\ r_data record' = JObject [(lit "dose", lit "2 puffs")].
Proof.
  split; [reflexivity|].
  apply (update_record_round_trip Sample.dict_str Sample.inhaler Sample.alice
           Sample.retitle None [] Sample.clinic).
  reflexivity.
Defined.

Lemma detail_views_not_found_witness :
  Forall (fun r => r_id r = 12%N ->
                   r_user r <> Sample.alice \/ r_is_deleted r = true)
         (medical_records (db Sample.clinic))
  /\ detail_get 12 Sample.alice Sample.clinic = (Ok not_found, Sample.clinic)
  /\ detail_patch Sample.dict_str 12 Sample.alice
       (Raise (Exception (lit "ValidationError"))) None None Sample.clinic
     = (Ok not_found, Sample.clinic)
  /\ detail_delete 12 Sample.alice None None Sample.clinic
     = (Ok not_found, Sample.clinic).
Proof.
  assert (Hnone : Forall (fun r => r_id r = 12%N ->
                     r_user r <> Sample.alice \/ r_is_deleted r = true)
                    (medical_records (db Sample.clinic))).
  { unfold Sample.clinic, Sample.world, Sample.database.
    cbn [db medical_records].
    apply Forall_cons; [intros Hid; vm_compute in Hid; discriminate Hid|].
    apply Forall_cons;
      [intros _; left; intros Hu; vm_compute in Hu; discriminate Hu|].
    apply Forall_cons; [intros Hid; vm_compute in Hid; discriminate Hid|].
    apply Forall_nil. }
  split; [exact Hnone|].
  apply (detail_views_not_found Sample.dict_str 12 Sample.alice _ None None
           Sample.clinic Hnone).
Defined.

Lemma detail_delete_then_not_found_witness :
  get_record_detail (db Sample.clinic) 11 Sample.alice = Some Sample.inhaler
  /\ exists w',
       detail_delete 11 Sample.alice None None Sample.clinic
       = (Ok {| http_status := 204; content := NoContent |}, w')
       /\ detail_get 11 Sample.alice w' = (Ok not_found, w')
       /\ detail_delete 11 Sample.alice None None w' = (Ok not_found, w')
       /\ length (medical_records (db w'))
          = length (medical_records (db Sample.clinic)).
Proof.
  split; [reflexivity|].
  apply (detail_delete_then_not_found 11 Sample.alice None None Sample.clinic
           Sample.inhaler).
  reflexivity.
Defined.

Lemma list_create_then_detail_witness :
  Forall (fun r => r_id r <> 20%N) (medical_records (db Sample.clinic))
  /\ exists record w',
       list_create 20 100 Sample.alice (Ok Sample.new_record) None None
         Sample.clinic
       = (Ok {| http_status := 201;
                content := MedicalRecordSerializer_data (db w') record |}, w')
       /\ r_title record = lit "Salbutamol"
       /\ r_record_type record = MEDICATION
       /\ detail_get 20 Sample.alice w'
          = (Ok {| http_status := 200;
                   content := MedicalRecordSerializer_data (db w') record |}, w').
Proof.
  assert (Hfresh : Forall (fun r => r_id r <> 20%N)
                          (medical_records (db Sample.clinic)))
    by (repeat constructor; discriminate).
  split; [exact Hfresh|].
  apply (list_create_then_detail 20 100 Sample.alice Sample.new_record
           (Exception []) None None Sample.clinic Hfresh).
Defined.

Lemma detail_patch_then_detail_witness :
  get_record_detail (db Sample.clinic) 11 Sample.alice = Some Sample.inhaler
  /\ exists w',
       detail_patch Sample.dict_str 11 Sample.alice (Ok Sample.retitle) None
         None Sample.clinic
       = (Ok {| http_status := 200;
                content := MedicalRecordSerializer_data (db w')
                             (updated_fields Sample.inhaler Sample.retitle) |},
          w')
       /\ detail_get 11 Sample.alice w'
          = (Ok {| http_status := 200;
                   content := MedicalRecordSerializer_data (db w')
                                (updated_fields Sample.inhaler Sample.retitle) |},
             w').
Proof.
  split; [reflexivity|].
  apply (detail_patch_then_detail Sample.dict_str 11 Sample.alice Sample.retitle
           (Exception []) None None Sample.clinic Sample.inhaler).
  reflexivity.
Defined.

Lemma soft_delete_context_witness :
  Exists (fun r => r_id r = r_id Sample.inhaler)
         (medical_records (db Sample.clinic))
  /\ get_patient_medical_context (db Sample.clinic) Sample.alice <> Ok []
  /\ exists w',
       soft_delete_record Sample.inhaler Sample.alice None [] Sample.clinic
       = (Ok tt, w')
       /\ get_patient_medical_context (db w') Sample.alice = Ok [].
Proof.
  assert (Hex : Exists (fun r => r_id r = r_id Sample.inhaler)
                       (medical_records (db Sample.clinic)))
    by (by constructor).
  split; [exact Hex|]. split; [by vm_compute|].
  destruct (soft_delete_context Sample.inhaler Sample.alice None []
              Sample.clinic Sample.alice Hex) as (w' & Hrun & _ & Hempty).
  exists w'. split; [done|]. apply Hempty.
  by repeat constructor.
Defined.

Lemma record_lines_in_context_witness :
  exists sections context,
    context_sections (db Sample.clinic) Sample.alice = Ok sections
    /\ Sample.inhaler ∈ records_qs (db Sample.clinic) Sample.alice
    /\ lit "- Asthma (Status: ACTIVE)" ∈ sections
    /\ lit "  dose: 2 puffs" ∈ sections
    /\ get_patient_medical_context (db Sample.clinic) Sample.alice = Ok context
    /\ occurs_in (lit "  dose: 2 puffs") context.
Proof.
  destruct (context_sections (db Sample.clinic) Sample.alice)
    as [sections|e] eqn:Hs; [|vm_compute in Hs; discriminate Hs].
  assert (Hr : Sample.inhaler ∈ records_qs (db Sample.clinic) Sample.alice)
    by (vm_compute; constructor).
  destruct (record_lines_in_context (db Sample.clinic) Sample.alice sections
              Sample.inhaler Hs Hr) as (_ & Hsum & Hdata & Hocc).
  assert (Hfit : length (join [LF] sections) <= 10000).
  { vm_compute in Hs. injection Hs as <-. vm_compute. lia. }
  destruct (Hocc Hfit) as (context & Hctx & Hlines).
  exists sections, context. split; [reflexivity|]. split; [exact Hr|].
  split; [exact Hsum|]. split.
  - apply (Hdata [(lit "dose", lit "2 puffs")] (lit "dose", lit "2 puffs"));
      [reflexivity | constructor].
  - split; [exact Hctx|]. apply Hlines.
    unfold record_lines. apply elem_of_cons. right. constructor.
Defined.

Lemma extraction_all_or_nothing_witness :
  @PdfReader Sample.fragile_reader (f_payload Sample.damaged_pdf)
  = Ok [Byte.x61; Byte.x00]
  /\ @extract_text Sample.fragile_reader Byte.x61 = Ok (lit "a")
  /\ @extract_text Sample.fragile_reader Byte.x00
     = Raise (Exception (lit "unsupported encoding"))
  /\ exists p' e',
       p' ∈ [Byte.x61; Byte.x00]
       /\ @extract_text Sample.fragile_reader p' = Raise e'
       /\ @_extract_pdf_text Sample.fragile_reader Sample.damaged_pdf
            Sample.empty_world
          = (Ok [], after_failed_read Sample.empty_world e').
Proof.
  split; [reflexivity|]. split; [reflexivity|]. split; [reflexivity|].
  apply (@extraction_all_or_nothing Sample.fragile_reader Sample.damaged_pdf
           Sample.empty_world [Byte.x61; Byte.x00] Byte.x00
           (Exception (lit "unsupported encoding")));
    [reflexivity | | reflexivity].
  apply list_elem_of_further. constructor.
Defined.

Lemma upload_without_pdf_suffix_witness :
  endswith (ascii_lower (f_name Sample.photo)) (lit ".pdf") = false
  /\ exists doc w',
       @upload_document Sample.reader 30 100 Sample.alice Sample.photo
         IMAGING None None [] Sample.clinic = (Ok doc, w')
       /\ d_extracted_text doc = []
       /\ pdf_reads w' = pdf_reads Sample.clinic
       /\ warnings w' = warnings Sample.clinic
       /\ forall u, get_patient_medical_context (db w') u
                    = get_patient_medical_context (db Sample.clinic) u.
Proof.
  split; [reflexivity|].
  apply (@upload_without_pdf_suffix Sample.reader Sample.photo 30 100
           Sample.alice IMAGING None None [] Sample.clinic).
  reflexivity.
Defined.
